(** * SmartForm Builder: the submission pipeline of [main.py]

    A shallow embedding of [submit_form] and of the helpers it calls
    ([upload_file_to_drive], [append_submission_to_sheet],
    [get_google_services], [ensure_master_sheet]) together with the
    pydantic models of [schemas.py].

    Python dictionaries keep insertion order, and [submit_form] iterates
    over one ([field_map.items()]), so dictionaries are association lists
    whose keys are kept distinct by [dict_set].  Exceptions and the effects
    on the outside world (database, Drive, Sheets, clock, log) are threaded
    through a small state-and-exception monad in which the state survives a
    raise: a call that was made stays made.

    A multipart body is kept as it arrives, part by part; what the loop of
    [submit_form] iterates over is what [request.form()] makes of it, a
    [str] or an upload object of starlette's class for each part. *)

From Stdlib Require Import String Ascii List ZArith Bool Arith Lia.
From Stdlib Require Import DecimalString Permutation.
From Stdlib Require DecimalNat DecimalFacts.
Import ListNotations.
Local Open Scope string_scope.
Local Open Scope list_scope.

Set Implicit Arguments.

(** ** Python values that travel through the attribute map

    A JSON body may carry any JSON value.  The embedding covers [None],
    booleans, integers, strings and flat lists of those; floats and nested
    containers are left out. *)

Inductive scalar : Type :=
| SNone
| SBool (b : bool)
| SInt (z : Z)
| SStr (s : string).

Inductive value : Type :=
| Scalar (x : scalar)
| Seq (xs : list scalar).

(** Truthiness of a string, [bool(s)]. *)
Definition str_truthy (s : string) : bool :=
  match s with
  | EmptyString => false
  | String _ _ => true
  end.

(** [bool(v)]. *)
Definition truthy (v : value) : bool :=
  match v with
  | Scalar SNone => false
  | Scalar (SBool b) => b
  | Scalar (SInt z) => negb (Z.eqb z 0)
  | Scalar (SStr s) => str_truthy s
  | Seq [] => false
  | Seq (_ :: _) => true
  end.

(** [bool(d.get(k))]: a missing key reads as [None], which is falsy. *)
Definition truthy_opt (o : option value) : bool :=
  match o with
  | None => false
  | Some v => truthy v
  end.

(** [str(x)] on a scalar. *)
Definition py_str (x : scalar) : string :=
  match x with
  | SNone => "None"
  | SBool true => "True"
  | SBool false => "False"
  | SInt z => NilZero.string_of_int (Z.to_int z)
  | SStr s => s
  end.

(** [x or y] on optional strings ([None] and [""] are falsy). *)
Definition py_or (x y : option string) : option string :=
  match x with
  | Some s => if str_truthy s then x else y
  | None => y
  end.

(** ** Insertion-ordered dictionaries *)

Section Dict.
Variable V : Type.

Definition dict : Type := list (string * V).

(** [d.get(k)] *)
Fixpoint dict_get (k : string) (d : dict) : option V :=
  match d with
  | [] => None
  | (k', v) :: d' => if String.eqb k k' then Some v else dict_get k d'
  end.

(** [d[k] = v]: an existing key keeps its position, a new one goes last. *)
Fixpoint dict_set (k : string) (v : V) (d : dict) : dict :=
  match d with
  | [] => [(k, v)]
  | (k', v') :: d' =>
      if String.eqb k k' then (k', v) :: d' else (k', v') :: dict_set k v d'
  end.

Definition dict_keys (d : dict) : list string := map fst d.

(** [{**d, **e}] *)
Definition dict_merge (d e : dict) : dict :=
  fold_left (fun acc kv => dict_set (fst kv) (snd kv) acc) e d.
End Dict.

Arguments dict_get {V} k d.
Arguments dict_set {V} k v d.
Arguments dict_keys {V} d.
Arguments dict_merge {V} d e.

(** ** [schemas.py] *)

Record FormFieldOption : Type := mkOption {
  opt_label : string;
  opt_value : string
}.

Record FormField : Type := mkField {
  id : string;
  type : string;
  label : string;
  placeholder : option string;
  required : bool;
  options : option (list FormFieldOption);
  helperText : option string
}.

(** A stored [Form] document, with the [_id] the database gave it. *)
Record Form : Type := mkForm {
  form_oid : nat;
  title : string;
  description : option string;
  fields : list FormField;
  sheet_id : option string;
  sheet_name : option string;
  share_slug : option string;
  owner_uid : option string
}.

(** ** Timestamps: [datetime.utcnow()] and [isoformat()] *)

Record datetime : Type := mkDatetime {
  year : nat;
  month : nat;
  day : nat;
  hour : nat;
  minute : nat;
  second : nat;
  microsecond : nat
}.

Fixpoint zeros (n : nat) : string :=
  match n with
  | O => ""
  | S n' => "0" ++ zeros n'
  end.

(** [f"{n:0{w}d}"] *)
Definition pad (w n : nat) : string :=
  let s := NilZero.string_of_uint (Nat.to_uint n) in
  zeros (w - String.length s) ++ s.

(** [datetime.isoformat()] of a naive datetime: the fraction is printed
    only when the microsecond is not zero. *)
Definition isoformat (t : datetime) : string :=
  pad 4 (year t) ++ "-" ++ pad 2 (month t) ++ "-" ++ pad 2 (day t) ++ "T" ++
  pad 2 (hour t) ++ ":" ++ pad 2 (minute t) ++ ":" ++ pad 2 (second t) ++
  (if Nat.eqb (microsecond t) 0 then "" else "." ++ pad 6 (microsecond t)).

(** A stored [Submission] document: the fields of the pydantic model, the
    [_id] and the [created_at] stamp set when it is inserted. *)
Record Submission : Type := mkSubmission {
  sub_oid : nat;
  form_id : string;
  data : dict value;
  file_links : dict string;
  user_agent : option string;
  ip_address : option string;
  created_at : datetime
}.

(** [str(ObjectId)]: identities are counted, and printed in decimal. *)
Definition str_oid (n : nat) : string :=
  NilZero.string_of_uint (Nat.to_uint n).

(** ** Requests *)

(** What an upload object holds: the [filename] parameter of the part
    (possibly the empty one a browser sends for a file input left blank),
    its content type and its bytes. *)
Record UploadFile : Type := mkUpload {
  filename : string;
  content_type : string;
  file : string
}.

(** One part of a multipart body as it arrives under its field name:
    plain text, or a part that carries a [filename] parameter. *)
Inductive form_value : Type :=
| Text (s : string)
| File (f : UploadFile).

(** The two shapes [submit_form] tells apart at line 290: a body whose
    content type starts with [application/json], seen through the ["data"]
    member of its object, if it has one; and anything else, read as a form
    whose parts come in arrival order and may repeat a key.

    A JSON body is taken to be an object whose ["data"] member is absent
    or an object of the values above.  Any other JSON body makes
    [submit_form] raise before it stores anything (line 292 on a body that
    is not an object; line 314 or line 319 on a ["data"] member that is
    not an object) and is left out. *)
Inductive Request : Type :=
| JsonRequest (payload_data : option (dict value))
| FormRequest (multi_items : list (string * form_value)).

(** The classes of the upload objects.  [main.py] takes the name
    [UploadFile] from [fastapi] (line 9); that class extends
    [starlette.datastructures.UploadFile]. *)
Inductive upload_class : Type :=
| StarletteUploadFile
| FastapiUploadFile.

(** One value of [form.multi_items()] as the loop meets it: a [str], or
    an upload object of some class. *)
Inductive item_value : Type :=
| Str (s : string)
| Upload (c : upload_class) (f : UploadFile).

(** [await request.form()], [request] being starlette's [Request]: the
    parser hands a part without a [filename] parameter over as a [str] and
    wraps every other part in starlette's own [UploadFile]. *)
Definition request_form (parts : list (string * form_value))
  : list (string * item_value) :=
  map (fun kv => (fst kv,
                  match snd kv with
                  | Text s => Str s
                  | File f => Upload StarletteUploadFile f
                  end)) parts.

(** [isinstance(v, UploadFile)] at line 297, on an upload object of class
    [c]: the name is the one of line 9, and an instance of the parent
    class is not an instance of the subclass. *)
Definition isinstance_UploadFile (c : upload_class) : bool :=
  match c with
  | FastapiUploadFile => true
  | StarletteUploadFile => false
  end.

(** ** Exceptions *)

Inductive exn : Type :=
| HTTPException (status_code : nat) (detail : string)
| HttpError (reason : string)
| Exception (reason : string).

(** The rejection of line 315, under the name the specification uses. *)
Definition RequiredFieldMissing (name : string) : exn :=
  HTTPException 400 ("Missing required field: " ++ name).

Definition FormNotFound : exn := HTTPException 404 "Form not found".

(** ** The outside world *)

(** What Drive answers to [files().create(...)]. *)
Record DriveFile : Type := mkDriveFile {
  drive_id : string;
  webViewLink : option string;
  webContentLink : option string
}.

(** Calls that leave the process, in the order they are made. *)
Inductive Event : Type :=
| DriveCreate (f : UploadFile)
| DrivePermission (file_id : string)
| DbInsert (collection : string) (oid : nat)
| SheetAppend (range : string) (row : list value)
| Print (msg : string) (e : exn).

Record World : Type := mkWorld {
  form_coll : list Form;
  submission_coll : list Submission;
  next_oid : nat;
  clock_reads : nat;
  trace : list Event
}.

(** Configuration read from the environment at import time and the
    behaviour of the remote services. *)
Record Env : Type := mkEnv {
  SERVICE_ACCOUNT_JSON : option string;
  MASTER_SPREADSHEET_ID : option string;
  DRIVE_FOLDER_ID : option string;
  (** [Credentials.from_service_account_info/_file] raising [e] *)
  credentials_error : option string;
  (** [build(...)] raising [e] *)
  build_error : option string;
  (** [spreadsheets().get(...).execute()] raising *)
  spreadsheets_get : option exn;
  (** [files().create(...).execute()] *)
  files_create : UploadFile -> exn + DriveFile;
  (** [permissions().create(...).execute()] raising *)
  permissions_create : string -> option exn;
  (** [values().append(...).execute()] raising *)
  values_append : string -> list value -> option exn;
  (** the [n]-th reading of the clock *)
  utcnow : nat -> datetime;
  (** what [UploadFile.__repr__] prints between the brackets for the part
      that arrived under a field name: the name of the file, its size and
      the headers of the part *)
  upload_repr : string -> UploadFile -> string
}.

(** [str(v)] on an upload object: starlette prints
    [UploadFile(filename=..., size=..., headers=...)]. *)
Definition str_upload (env : Env) (k : string) (v : UploadFile) : string :=
  "UploadFile(" ++ upload_repr env k v ++ ")".

Definition opt_truthy (o : option string) : bool :=
  match o with
  | Some s => str_truthy s
  | None => false
  end.

(** ** Computations that may raise and that change the world *)

Definition M (A : Type) : Type := World -> (exn + A) * World.

Definition ret {A} (a : A) : M A := fun w => (inr a, w).

Definition raise {A} (e : exn) : M A := fun w => (inl e, w).

Definition bind {A B} (c : M A) (k : A -> M B) : M B :=
  fun w =>
    match c w with
    | (inl e, w') => (inl e, w')
    | (inr a, w') => k a w'
    end.

(** [try: c  except Exception as e: h e] *)
Definition try_except {A} (c : M A) (h : exn -> M A) : M A :=
  fun w =>
    match c w with
    | (inl e, w') => h e w'
    | (inr a, w') => (inr a, w')
    end.

Definition emit (ev : Event) : M unit :=
  fun w => (inr tt,
            mkWorld (form_coll w) (submission_coll w) (next_oid w)
                    (clock_reads w) (trace w ++ [ev])).

Declare Scope py_scope.
Delimit Scope py_scope with py.
Notation "x <- c ;; k" := (bind c (fun x => k))
  (at level 61, c at next level, right associativity) : py_scope.
Notation "c ;;; k" := (bind c (fun _ => k))
  (at level 61, right associativity) : py_scope.
Local Open Scope py_scope.

(** ** The attribute-map side of the multipart loop (lines 302-309) *)

(** One plain-text entry [(k, v)] folded into [data]. *)
Definition merge_text (k v : string) (data : dict value) : dict value :=
  match dict_get k data with
  | Some (Seq xs) => dict_set k (Seq (xs ++ [SStr v])) data
  | Some (Scalar x) => dict_set k (Seq [x; SStr v]) data
  | None => dict_set k (Scalar (SStr v)) data
  end.

(** ** Required validation (lines 311-316) *)

(** [{f.get("id"): f for f in fields}] *)
Definition field_map (fs : list FormField) : dict FormField :=
  fold_left (fun m f => dict_set (id f) f m) fs [].

(** [field.get('label') or fid] *)
Definition display_name (fid : string) (field : FormField) : string :=
  if str_truthy (label field) then label field else fid.

(** [field.get("required") and not data.get(fid)] *)
Definition is_missing (data : dict value) (fid : string) (field : FormField)
  : bool :=
  required field && negb (truthy_opt (dict_get fid data)).

Fixpoint required_loop (items : list (string * FormField)) (data : dict value)
  : M unit :=
  match items with
  | [] => ret tt
  | (fid, field) :: rest =>
      if is_missing data fid field
      then raise (RequiredFieldMissing (display_name fid field))
      else required_loop rest data
  end.

Definition required_validation (fs : list FormField) (data : dict value)
  : M unit :=
  required_loop (field_map fs) data.

(** ** The row of [append_submission_to_sheet] (lines 152-158) *)

Definition cell (data : dict value) (f : FormField) : value :=
  match dict_get (id f) data with
  | Some (Seq xs) => Scalar (SStr (String.concat ", " (map py_str xs)))
  | Some v => v
  | None => Scalar SNone
  end.

Definition build_row (t : datetime) (fs : list FormField) (data : dict value)
  : list value :=
  fold_left (fun row f => row ++ [cell data f]) fs
            [Scalar (SStr (isoformat t))].

(** [f"{sheet_name}!A1"], where [sheet_name] may be [None]. *)
Definition range_of (sheet : option string) : string :=
  match sheet with
  | Some s => s ++ "!A1"
  | None => "None!A1"
  end.

(** A link as a value of the combined dictionary, [None] included. *)
Definition link_value (l : option string) : value :=
  match l with
  | Some s => Scalar (SStr s)
  | None => Scalar SNone
  end.

(** [{**data, **{k: v for k, v in file_links.items()}}] *)
Definition combined (data : dict value) (links : dict (option string))
  : dict value :=
  dict_merge data (map (fun kv => (fst kv, link_value (snd kv))) links).

(** ** The [Submission] model

    [file_links] is declared [Optional[Dict[str, str]]]: pydantic refuses a
    dictionary one of whose values is [None]. *)
Fixpoint checked_links (links : dict (option string)) : option (dict string) :=
  match links with
  | [] => Some []
  | (k, Some s) :: rest =>
      match checked_links rest with
      | Some rest' => Some ((k, s) :: rest')
      | None => None
      end
  | (_, None) :: _ => None
  end.

Definition SubmissionSchema (links : dict (option string)) : M (dict string) :=
  match checked_links links with
  | Some ls => ret ls
  | None => raise (Exception "ValidationError")
  end.

(** The body of the answer, [{"status": ..., "submission_id": ...}]. *)
Record Response : Type := mkResponse {
  status : string;
  submission_id : string
}.

Section Pipeline.
Variable env : Env.

(** [datetime.utcnow()] *)
Definition now : M datetime :=
  fun w => (inr (utcnow env (clock_reads w)),
            mkWorld (form_coll w) (submission_coll w) (next_oid w)
                    (S (clock_reads w)) (trace w)).

(** [get_google_services] (lines 61-82), for its exceptions. *)
Definition get_google_services : M unit :=
  (if opt_truthy (SERVICE_ACCOUNT_JSON env)
   then match credentials_error env with
        | Some e =>
            raise (HTTPException 500
                     ("Invalid Google service account credentials: " ++ e))
        | None => ret tt
        end
   else raise (HTTPException 500 "GOOGLE_SERVICE_ACCOUNT_JSON not set")) ;;;
  match build_error env with
  | Some e =>
      raise (HTTPException 500 ("Failed to initialize Google services: " ++ e))
  | None => ret tt
  end.

(** [ensure_master_sheet] (lines 100-107): only an [HttpError] of the
    probe is turned into an [HTTPException]. *)
Definition ensure_master_sheet : M unit :=
  if opt_truthy (MASTER_SPREADSHEET_ID env)
  then match spreadsheets_get env with
       | Some (HttpError e) =>
           raise (HTTPException 500 ("Invalid MASTER_SPREADSHEET_ID: " ++ e))
       | Some e => raise e
       | None => ret tt
       end
  else raise (HTTPException 500 "MASTER_SPREADSHEET_ID not set").

(** [upload_file_to_drive] (lines 168-186). *)
Definition upload_file_to_drive (f : UploadFile) : M (option string) :=
  get_google_services ;;;
  (if opt_truthy (DRIVE_FOLDER_ID env)
   then ret tt
   else raise (HTTPException 500 "DRIVE_FOLDER_ID not set")) ;;;
  emit (DriveCreate f) ;;;
  uploaded <- (match files_create env f with
               | inl e => raise e
               | inr d => ret d
               end) ;;
  try_except
    (emit (DrivePermission (drive_id uploaded)) ;;;
     match permissions_create env (drive_id uploaded) with
     | Some e => raise e
     | None => ret tt
     end)
    (fun _ => ret tt) ;;;
  ret (py_or (webViewLink uploaded) (webContentLink uploaded)).

(** [append_submission_to_sheet] (lines 147-165).  The [headers] list of
    line 151 is computed and never used. *)
Definition append_submission_to_sheet (sheet : option string)
           (fs : list FormField) (data : dict value) : M unit :=
  get_google_services ;;;
  ensure_master_sheet ;;;
  t <- now ;;
  let row := build_row t fs data in
  emit (SheetAppend (range_of sheet) row) ;;;
  match values_append env (range_of sheet) row with
  | Some e => raise e
  | None => ret tt
  end.

(** The loop over [form.multi_items()] (lines 296-309).  What fails the
    test of line 297 goes through [str] into the attribute map, an upload
    object as well as a [str]. *)
Fixpoint multi_items_loop (items : list (string * item_value))
         (data : dict value) (links : dict (option string))
  : M (dict value * dict (option string)) :=
  match items with
  | [] => ret (data, links)
  | (k, Upload c v) :: rest =>
      if isinstance_UploadFile c
      then if str_truthy (filename v)
           then link <- upload_file_to_drive v ;;
                multi_items_loop rest data (dict_set k link links)
           else multi_items_loop rest data links
      else multi_items_loop rest (merge_text k (str_upload env k v) data)
                            links
  | (k, Str v) :: rest =>
      multi_items_loop rest (merge_text k v data) links
  end.

(** Lines 286-309: the attribute map and the file links of a request. *)
Definition read_payload (request : Request)
  : M (dict value * dict (option string)) :=
  match request with
  | JsonRequest (Some d) => ret (d, [])
  | JsonRequest None => ret ([], [])
  | FormRequest parts => multi_items_loop (request_form parts) [] []
  end.

(** [db["form"].find_one({"share_slug": slug})] *)
Definition find_one_form (slug : string) : M (option Form) :=
  fun w =>
    (inr (find (fun f => match share_slug f with
                         | Some s => String.eqb s slug
                         | None => false
                         end) (form_coll w)), w).

(** Modelled from the spec: [create_document] of the [database] module,
    which is not among the sources.  Section 4.5: it "assigns a fresh
    unique identity and a server-side creation timestamp, persists the
    record durably, and returns the identity", as "a single atomic
    insert". *)
Definition create_document (fid : string) (d : dict value)
           (ls : dict string) : M string :=
  t <- now ;;
  fun w =>
    let oid := next_oid w in
    (inr (str_oid oid),
     mkWorld (form_coll w)
             (submission_coll w ++ [mkSubmission oid fid d ls None None t])
             (S oid) (clock_reads w)
             (trace w ++ [DbInsert "submission" oid])).

(** [submit_form] (lines 279-330). *)
Definition submit_form (slug : string) (request : Request) : M Response :=
  found <- find_one_form slug ;;
  match found with
  | None => raise FormNotFound
  | Some form_doc =>
      payload <- read_payload request ;;
      let (d, links) := payload in
      required_validation (fields form_doc) d ;;;
      ls <- SubmissionSchema links ;;
      sub_id <- create_document (str_oid (form_oid form_doc)) d ls ;;
      try_except
        (append_submission_to_sheet (sheet_name form_doc) (fields form_doc)
                                    (combined d links))
        (fun e => emit (Print "Sheet append error:" e)) ;;;
      ret (mkResponse "ok" sub_id)
  end.
End Pipeline.

(** * Vocabulary of the properties *)

Definition is_drive_event (e : Event) : Prop :=
  match e with
  | DriveCreate _ | DrivePermission _ => True
  | _ => False
  end.

Definition is_mirror_event (e : Event) : Prop :=
  match e with
  | SheetAppend _ _ | Print _ _ => True
  | _ => False
  end.

(** [w'] is [w] after calls that satisfy [P], the database untouched. *)
Definition only (P : Event -> Prop) (w w' : World) : Prop :=
  form_coll w' = form_coll w /\
  submission_coll w' = submission_coll w /\
  next_oid w' = next_oid w /\
  exists evs, trace w' = trace w ++ evs /\ Forall P evs.

(** The text a part arrives as in the loop: plain text as it is, a part
    with a [filename] parameter as [str] prints its upload object. *)
Definition part_text (env : Env) (k : string) (v : form_value) : string :=
  match v with
  | Text s => s
  | File f => str_upload env k f
  end.

(** The texts that arrive under [k], in arrival order. *)
Fixpoint values_of (env : Env) (k : string)
         (items : list (string * form_value)) : list string :=
  match items with
  | [] => []
  | (k', v) :: rest =>
      if String.eqb k k'
      then part_text env k' v :: values_of env k rest
      else values_of env k rest
  end.

(** What the attribute map holds for a key under which [vs] arrived:
    nothing, the scalar, or the sequence. *)
Definition encode (vs : list string) : option value :=
  match vs with
  | [] => None
  | [v] => Some (Scalar (SStr v))
  | _ => Some (Seq (map SStr vs))
  end.

(** The entry the attribute map gets for [k] when [vs] are folded in after
    an entry [cur]. *)
Fixpoint absorb (cur : option value) (vs : list string) : option value :=
  match vs with
  | [] => cur
  | v :: vs' =>
      absorb (Some match cur with
                   | Some (Seq xs) => Seq (xs ++ [SStr v])
                   | Some (Scalar x) => Seq [x; SStr v]
                   | None => Scalar (SStr v)
                   end) vs'
  end.

(** The document [create_document] stores for an accepted submission that
    reached the store in world [w1]. *)
Definition committed (env : Env) (form_doc : Form) (d : dict value)
           (ls : dict string) (w1 : World) : Submission :=
  mkSubmission (next_oid w1) (str_oid (form_oid form_doc)) d ls None None
               (utcnow env (clock_reads w1)).

(** The keys of a request, in arrival order. *)
Definition raw_keys (request : Request) : list string :=
  match request with
  | JsonRequest (Some d) => dict_keys d
  | JsonRequest None => []
  | FormRequest items => map fst items
  end.

(** The same field under another declared type. *)
Definition retype (g : FormField -> string) (f : FormField) : FormField :=
  mkField (id f) (g f) (label f) (placeholder f) (required f) (options f)
          (helperText f).

(** The same environment with another tabular sink. *)
Definition with_sink (env : Env) (sheet_ref : option string)
           (probe : option exn)
           (append : string -> list value -> option exn) : Env :=
  mkEnv (SERVICE_ACCOUNT_JSON env) sheet_ref (DRIVE_FOLDER_ID env)
        (credentials_error env) (build_error env) probe
        (files_create env) (permissions_create env) append (utcnow env)
        (upload_repr env).

(** The links of a stored submission, as the loop held them. *)
Definition stored_links (ls : dict string) : dict (option string) :=
  map (fun kv => (fst kv, Some (snd kv))) ls.

(** ** Sample forms, requests and environments *)

Definition t_commit : datetime := mkDatetime 2024 5 17 9 30 0 125.
Definition t_mirror : datetime := mkDatetime 2024 5 17 9 30 0 131.

Definition drive_ok (f : UploadFile) : exn + DriveFile :=
  inr (mkDriveFile
         "file-1" (Some ("https://drive.example/view/" ++ filename f)%string)
         None).

Definition ticking (n : nat) : datetime :=
  match n with
  | O => t_commit
  | S _ => t_mirror
  end.

(** What is printed for a part whose headers are the two a browser
    sends, its content disposition and its content type. *)
Definition part_repr (k : string) (f : UploadFile) : string :=
  let q := String (ascii_of_nat 34) EmptyString in
  "filename='" ++ filename f ++ "', size="
  ++ NilZero.string_of_uint (Nat.to_uint (String.length (file f)))
  ++ ", headers=Headers({'content-disposition': 'form-data; name="
  ++ q ++ k ++ q ++ "; filename=" ++ q ++ filename f ++ q
  ++ "', 'content-type': '" ++ content_type f ++ "'})".

(** Every service answers. *)
Definition healthy : Env :=
  mkEnv (Some "{}") (Some "master") (Some "folder") None None None
        drive_ok (fun _ => None) (fun _ _ => None) ticking part_repr.

(** The spreadsheet refuses every append. *)
Definition sink_down : Env :=
  with_sink healthy (Some "master") None
            (fun _ _ => Some (HttpError "quota exceeded")).

Definition field_of (fid ftype flabel : string) (req : bool) : FormField :=
  mkField fid ftype flabel None req None None.

Definition form_of (slug : string) (fs : list FormField) : Form :=
  mkForm 1 "Form" None fs None (Some "tab") (Some slug) None.

Definition world_of (f : Form) : World := mkWorld [f] [] 10 0 [].

(** The RSVP form of the specification. *)
Definition rsvp : Form :=
  form_of "rsvp" [field_of "name" "text" "" true;
                  field_of "guests" "number" "" false].

(** Two required fields. *)
Definition contact : Form :=
  form_of "contact" [field_of "name" "text" "Name" true;
                     field_of "email" "email" "Email" true].

(** A required file field after a required text field. *)
Definition application : Form :=
  form_of "apply" [field_of "name" "text" "Name" true;
                   field_of "resume" "file" "Resume" true].

(** Nothing required. *)
Definition survey : Form :=
  form_of "survey" [field_of "colors" "checkbox" "Colors" false;
                    field_of "resume" "file" "Resume" false].

Definition cv : UploadFile := mkUpload "cv.pdf" "application/pdf" "%PDF".
Definition blank : UploadFile := mkUpload "" "application/octet-stream" "".

(** * The rest of [main.py]

    Header values reach the handlers decoded as Latin-1, one character per
    byte; titles and slugs are taken in the same range, so that a [string]
    is the sequence of characters Python sees. *)

(** ** Text *)

(** [c.isspace()] below U+0100. *)
Definition is_space (c : ascii) : bool :=
  let n := nat_of_ascii c in
  (((9 <=? n) && (n <=? 13)) || ((28 <=? n) && (n <=? 32))
   || (n =? 133) || (n =? 160))%nat.

(** [s.split()]: the maximal runs of characters that are not spaces. *)
Fixpoint split_from (word s : string) : list string :=
  match s with
  | EmptyString =>
      match word with
      | EmptyString => []
      | _ => [word]
      end
  | String c s' =>
      if is_space c
      then match word with
           | EmptyString => split_from EmptyString s'
           | _ => word :: split_from EmptyString s'
           end
      else split_from (word ++ String c EmptyString) s'
  end.

Definition py_split (s : string) : list string := split_from EmptyString s.

(** [c.lower()] below U+0100: the ASCII capitals and the Latin-1 ones. *)
Definition lower_char (c : ascii) : ascii :=
  let n := nat_of_ascii c in
  if (((65 <=? n) && (n <=? 90))
      || ((192 <=? n) && (n <=? 222) && negb (n =? 215)))%nat
  then ascii_of_nat (n + 32)
  else c.

Fixpoint py_lower (s : string) : string :=
  match s with
  | EmptyString => EmptyString
  | String c s' => String (lower_char c) (py_lower s')
  end.

(** [s.replace(old, new)] for one-character [old] and [new]. *)
Fixpoint replace_char (old new : ascii) (s : string) : string :=
  match s with
  | EmptyString => EmptyString
  | String c s' =>
      String (if Ascii.eqb c old then new else c) (replace_char old new s')
  end.

(** [s.rstrip(c)] for a one-character [c]. *)
Fixpoint rstrip (c : ascii) (s : string) : string :=
  match s with
  | EmptyString => EmptyString
  | String a s' =>
      match rstrip c s' with
      | EmptyString =>
          if Ascii.eqb a c then EmptyString else String a EmptyString
      | r => String a r
      end
  end.

(** [s[:n]] *)
Fixpoint take (n : nat) (s : string) : string :=
  match n, s with
  | S n', String c s' => String c (take n' s')
  | _, _ => EmptyString
  end.

(** [str(n)] on an integer. *)
Definition str_int (z : Z) : string := NilZero.string_of_int (Z.to_int z).

(** Every character is a space, or none is. *)
Fixpoint all_space (s : string) : bool :=
  match s with
  | EmptyString => true
  | String c s' => is_space c && all_space s'
  end.

Fixpoint no_space (s : string) : bool :=
  match s with
  | EmptyString => true
  | String c s' => negb (is_space c) && no_space s'
  end.

(** [c * k] *)
Fixpoint times (c : ascii) (k : nat) : string :=
  match k with
  | O => EmptyString
  | S k' => String c (times c k')
  end.

(** [c in s] *)
Fixpoint has_char (c : ascii) (s : string) : bool :=
  match s with
  | EmptyString => false
  | String a s' => Ascii.eqb a c || has_char c s'
  end.

(** ** [verify_admin] (lines 85-97)

    [verify_id_token] stands for [fb_auth.verify_id_token] followed by
    [decoded.get("uid")]: the text of the exception it raises, or the
    [uid] of the decoded token, if it has one. *)
Definition verify_admin (verify_id_token : string -> string + option string)
           (authorization : option string) : exn + option string :=
  if opt_truthy authorization
  then match authorization with
       | Some header =>
           match py_split header with
           | [scheme; token] =>
               if String.eqb (py_lower scheme) "bearer"
               then match verify_id_token token with
                    | inr uid => inr uid
                    | inl e => inl (HTTPException 401 ("Invalid token: " ++ e))
                    end
               else inl (HTTPException 401 "Invalid Authorization header")
           | _ => inl (HTTPException 401 "Invalid Authorization header")
           end
       | None => inl (HTTPException 401 "Missing Authorization header")
       end
  else inl (HTTPException 401 "Missing Authorization header").

(** ** Reading routes *)

(** [get_form_by_slug] (lines 270-276).  The [_id] of the document it
    returns is printed with [str_oid]. *)
Definition get_form_by_slug (slug : string) : M Form :=
  (doc <- find_one_form slug ;;
   match doc with
   | Some f => ret f
   | None => raise FormNotFound
   end)%py.

(** What [form_analytics] answers. *)
Record Analytics : Type := mkAnalytics {
  count : nat;
  recent : list Submission
}.

(** The submissions the database finds for [{"form_id": fid}]. *)
Definition find_submissions (fid : string) (w : World) : list Submission :=
  filter (fun s => String.eqb (form_id s) fid) (submission_coll w).

(** [form_analytics] (lines 333-342).  [sort_desc] is the database's
    [sort=[("created_at", -1)]]. *)
Definition form_analytics
           (sort_desc : list Submission -> list Submission)
           (slug : string) : M Analytics :=
  (found <- find_one_form slug ;;
   match found with
   | None => raise FormNotFound
   | Some form_doc =>
       fun w =>
         let mine := find_submissions (str_oid (form_oid form_doc)) w in
         (inr (mkAnalytics (List.length mine) (firstn 5 (sort_desc mine))), w)
   end)%py.

(** ** [export_csv] (lines 345-367) *)

Definition dquote : ascii := ascii_of_nat 34.
Definition comma : ascii := ascii_of_nat 44.
Definition CR : ascii := ascii_of_nat 13.
Definition LF : ascii := ascii_of_nat 10.
Definition CRLF : string := String CR (String LF EmptyString).

(** The characters that make the writer of the [excel] dialect quote a
    field: the delimiter, the quote and those of the line terminator. *)
Definition csv_special (c : ascii) : bool :=
  Ascii.eqb c comma || Ascii.eqb c dquote || Ascii.eqb c CR || Ascii.eqb c LF.

Fixpoint needs_quotes (s : string) : bool :=
  match s with
  | EmptyString => false
  | String c s' => csv_special c || needs_quotes s'
  end.

Fixpoint double_quotes (s : string) : string :=
  match s with
  | EmptyString => EmptyString
  | String c s' =>
      if Ascii.eqb c dquote
      then String dquote (String dquote (double_quotes s'))
      else String c (double_quotes s')
  end.

Definition csv_field (s : string) : string :=
  if needs_quotes s
  then String dquote (double_quotes s ++ String dquote EmptyString)
  else s.

(** A record of the writer; a lone empty field is written quoted. *)
Definition csv_record (row : list string) : string :=
  (match row with
   | [EmptyString] => String dquote (String dquote EmptyString)
   | _ => String.concat (String comma EmptyString) (map csv_field row)
   end ++ CRLF)%string.

(** Reading one field back from the start of a record: the field, and
    what follows it.  The code has no reader; these serve to show that
    what the writer writes can be told apart. *)
Fixpoint read_quoted (s : string) : string * string :=
  match s with
  | EmptyString => (EmptyString, EmptyString)
  | String c s' =>
      if Ascii.eqb c dquote
      then match s' with
           | String c' s'' =>
               if Ascii.eqb c' dquote
               then let (f, r) := read_quoted s'' in (String dquote f, r)
               else (EmptyString, s')
           | EmptyString => (EmptyString, EmptyString)
           end
      else let (f, r) := read_quoted s' in (String c f, r)
  end.

Fixpoint read_plain (s : string) : string * string :=
  match s with
  | EmptyString => (EmptyString, EmptyString)
  | String c s' =>
      if csv_special c
      then (EmptyString, s)
      else let (f, r) := read_plain s' in (String c f, r)
  end.

Definition read_field (s : string) : string * string :=
  match s with
  | EmptyString => (EmptyString, EmptyString)
  | String c s' => if Ascii.eqb c dquote then read_quoted s' else read_plain s
  end.

(** What a record holds after its first field. *)
Fixpoint csv_tail (row : list string) : string :=
  match row with
  | [] => CRLF
  | f :: rest => String comma (csv_field f ++ csv_tail rest)
  end.

(** A separator comes next: a comma, or the end of the line. *)
Definition sep_next (s : string) : Prop :=
  exists c r, s = String c r /\ (c = comma \/ c = CR).

(** How the writer prints a cell: [None] as nothing, the rest by [str]. *)
Definition csv_text (x : scalar) : string :=
  match x with
  | SNone => EmptyString
  | _ => py_str x
  end.

(** [writer.writerow(row)] as the text it writes. *)
Definition writerow (row : list scalar) : string :=
  csv_record (map csv_text row).

(** [io.StringIO]: the text and the position of the next write. *)
Record StringIO : Type := mkStringIO {
  buf : string;
  pos : nat
}.

Fixpoint drop (n : nat) (s : string) : string :=
  match n, s with
  | S n', String _ s' => drop n' s'
  | _, _ => s
  end.

Fixpoint nulls (n : nat) : string :=
  match n with
  | O => EmptyString
  | S n' => String Ascii.zero (nulls n')
  end.

(** [output.write(s)]: over what is there from [pos] on, after padding a
    text that is too short. *)
Definition sio_write (s : string) (io : StringIO) : StringIO :=
  let padded := (buf io ++ nulls (pos io - String.length (buf io)))%string in
  mkStringIO (take (pos io) padded ++ s
              ++ drop (pos io + String.length s) padded)%string
             (pos io + String.length s).

Definition sio_seek (n : nat) (io : StringIO) : StringIO :=
  mkStringIO (buf io) n.

(** [output.truncate(n)] cuts and never extends. *)
Definition sio_truncate (n : nat) (io : StringIO) : StringIO :=
  mkStringIO (take n (buf io)) (pos io).

(** The cell of one field: [s.get("data", {}).get(fid)], a list joined. *)
Definition export_cell (d : dict value) (fid : string) : scalar :=
  match dict_get fid d with
  | Some (Seq xs) => SStr (String.concat ", " (map py_str xs))
  | Some (Scalar x) => x
  | None => SNone
  end.

Definition export_row (fids : list string) (s : Submission) : list scalar :=
  fold_left (fun row fid => row ++ [export_cell (data s) fid]) fids
            [SStr (isoformat (created_at s))].

(** The loop of [iter_rows] from a buffer [io]: after each row the text
    written so far is yielded and the buffer is emptied. *)
Fixpoint iter_subs (fids : list string) (subs : list Submission)
         (io : StringIO) : list string :=
  match subs with
  | [] => []
  | s :: rest =>
      let io1 := sio_write (writerow (export_row fids s)) io in
      buf io1 :: iter_subs fids rest (sio_truncate 0 (sio_seek 0 io1))
  end.

Definition iter_rows (fids : list string) (subs : list Submission)
  : list string :=
  let io1 := sio_write (writerow (SStr "timestamp" :: map SStr fids))
                       (mkStringIO EmptyString 0) in
  buf io1 :: iter_subs fids subs (sio_truncate 0 (sio_seek 0 io1)).

(** The chunks of the streamed body. *)
Definition export_csv (slug : string) : M (list string) :=
  (found <- find_one_form slug ;;
   match found with
   | None => raise FormNotFound
   | Some form_doc =>
       fun w =>
         (inr (iter_rows (map (@id) (fields form_doc))
                         (find_submissions (str_oid (form_oid form_doc)) w)),
          w)
   end)%py.

(** ** Creating a form *)

(** One element of [payload.fields], a [Dict[str, Any]]: each key of the
    [FormField] model is absent, or present with a value of its declared
    type.  Other keys are ignored by the model and are left out, as are
    values of another type. *)
Record RawField : Type := mkRaw {
  raw_id : option string;
  raw_type : option string;
  raw_label : option string;
  raw_placeholder : option string;
  raw_required : option bool;
  raw_options : option (list FormFieldOption);
  raw_helperText : option string
}.

(** [CreateFormRequest] *)
Record CreateFormRequest : Type := mkCreateFormRequest {
  req_title : string;
  req_description : option string;
  req_fields : list RawField
}.

(** [CreateFormResponse]; [create_form] always has a sheet name. *)
Record CreateFormResponse : Type := mkCreateFormResponse {
  resp_form_id : string;
  share_url : string;
  resp_sheet_name : string
}.

(** The [FormField] model applied to one dictionary: [id], [type] and
    [label] are required, [required] defaults to [False]. *)
Definition FormFieldSchema (f : RawField) : option FormField :=
  match raw_id f, raw_type f, raw_label f with
  | Some i, Some t, Some l =>
      Some (mkField i t l (raw_placeholder f)
                    (match raw_required f with
                     | Some b => b
                     | None => false
                     end)
                    (raw_options f) (raw_helperText f))
  | _, _, _ => None
  end.

Fixpoint FormFields (fs : list RawField) : option (list FormField) :=
  match fs with
  | [] => Some []
  | f :: rest =>
      match FormFieldSchema f, FormFields rest with
      | Some f', Some rest' => Some (f' :: rest')
      | _, _ => None
      end
  end.

(** [f.get("label", f.get("id"))] *)
Definition header_of (f : RawField) : option string :=
  match raw_label f with
  | Some l => Some l
  | None => raw_id f
  end.

(** [["Timestamp"] + [f.get("label", f.get("id")) for f in fields]] *)
Definition headers (fs : list RawField) : list (option string) :=
  Some "Timestamp" :: map header_of fs.

(** The calls to the spreadsheet that create a tab. *)
Inductive SheetCall : Type :=
| AddSheet (sheet_title : string) (rowCount columnCount : nat)
| UpdateValues (range : string) (row : list (option string)).

(** The world of the submission pipeline and the tabs made so far. *)
Record AdminWorld : Type := mkAdminWorld {
  world : World;
  sheet_calls : list SheetCall
}.

Record AdminEnv : Type := mkAdminEnv {
  services : Env;
  PUBLIC_BASE_URL : string;
  (** [int(t.timestamp())] *)
  epoch_seconds : datetime -> Z;
  (** [batchUpdate(...).execute()] raising *)
  batchUpdate : string -> nat -> nat -> option exn;
  (** [values().update(...).execute()] raising *)
  values_update : string -> list (option string) -> option exn
}.

Definition MA (A : Type) : Type := AdminWorld -> (exn + A) * AdminWorld.

Definition aret {A} (a : A) : MA A := fun w => (inr a, w).

Definition araise {A} (e : exn) : MA A := fun w => (inl e, w).

Definition abind {A B} (c : MA A) (k : A -> MA B) : MA B :=
  fun w =>
    match c w with
    | (inl e, w') => (inl e, w')
    | (inr a, w') => k a w'
    end.

(** A computation of the pipeline, run in the larger world. *)
Definition lift {A} (c : M A) : MA A :=
  fun w =>
    match c (world w) with
    | (r, w') => (r, mkAdminWorld w' (sheet_calls w))
    end.

Definition call (c : SheetCall) : MA unit :=
  fun w => (inr tt, mkAdminWorld (world w) (sheet_calls w ++ [c])).

Declare Scope admin_scope.
Delimit Scope admin_scope with admin.
Notation "x <- c ;; k" := (abind c (fun x => k))
  (at level 61, c at next level, right associativity) : admin_scope.
Notation "c ;;; k" := (abind c (fun _ => k))
  (at level 61, right associativity) : admin_scope.

(** [title.lower().replace(' ', '-')] followed by the seconds. *)
Definition slug_of (form_title : string) (seconds : Z) : string :=
  (replace_char (ascii_of_nat 32) (ascii_of_nat 45) (py_lower form_title)
   ++ "-" ++ str_int seconds)%string.

(** [f"{PUBLIC_BASE_URL.rstrip('/')}/f/{slug}"] *)
Definition share_link (base slug : string) : string :=
  (rstrip (ascii_of_nat 47) base ++ "/f/" ++ slug)%string.

Section Admin.
Variable aenv : AdminEnv.

(** [create_sheet_tab_for_form] (lines 110-144). *)
Definition create_sheet_tab_for_form (form_title : string)
           (fs : list RawField) (given_name : option string) : MA string :=
  (lift (get_google_services (services aenv)) ;;;
   lift (ensure_master_sheet (services aenv)) ;;;
   sheet_title <- (if opt_truthy given_name
                   then match given_name with
                        | Some n => aret n
                        | None => aret EmptyString
                        end
                   else t <- lift (now (services aenv)) ;;
                        aret (take 25 form_title ++ "-"
                              ++ str_int (epoch_seconds aenv t))%string) ;;
   let hs := headers fs in
   call (AddSheet sheet_title 1000 (List.length hs + 2)) ;;;
   match batchUpdate aenv sheet_title 1000 (List.length hs + 2) with
   | Some e => araise e
   | None => aret tt
   end ;;;
   call (UpdateValues (sheet_title ++ "!A1") hs) ;;;
   match values_update aenv (sheet_title ++ "!A1")%string hs with
   | Some e => araise e
   | None => aret tt
   end ;;;
   aret sheet_title)%admin.

(** Modelled from the spec: [create_document] of the [database] module on
    the [form] collection, as for submissions; the creation stamp it takes
    is not kept in [Form]. *)
Definition create_form_document (f : Form) : M string :=
  (t <- now (services aenv) ;;
   fun w =>
     let oid := next_oid w in
     (inr (str_oid oid),
      mkWorld (form_coll w
               ++ [mkForm oid (title f) (description f) (fields f)
                          (sheet_id f) (sheet_name f) (share_slug f)
                          (owner_uid f)])
              (submission_coll w) (S oid) (clock_reads w)
              (trace w ++ [DbInsert "form" oid])))%py.

(** [create_form] (lines 230-249), for the [uid] that [verify_admin]
    returned. *)
Definition create_form (payload : CreateFormRequest) (uid : option string)
  : MA CreateFormResponse :=
  (tab <- create_sheet_tab_for_form (req_title payload) (req_fields payload)
                                    None ;;
   t <- lift (now (services aenv)) ;;
   let slug := slug_of (req_title payload) (epoch_seconds aenv t) in
   fs <- match FormFields (req_fields payload) with
         | Some fs => aret fs
         | None => araise (Exception "ValidationError")
         end ;;
   new_id <- lift (create_form_document
                     (mkForm 0 (req_title payload) (req_description payload)
                             fs None (Some tab) (Some slug) uid)) ;;
   aret (mkCreateFormResponse new_id
                              (share_link (PUBLIC_BASE_URL aenv) slug)
                              tab))%admin.

(** The route behind [Depends(verify_admin)]: the handler runs for the
    [uid] the dependency returned, and not at all when it raised. *)
Definition create_form_route
           (verify_id_token : string -> string + option string)
           (authorization : option string) (payload : CreateFormRequest)
  : MA CreateFormResponse :=
  match verify_admin verify_id_token authorization with
  | inl e => araise e
  | inr uid => create_form payload uid
  end.

(** [form_qr] (lines 370-377), up to the text the code is made of. *)
Definition form_qr (slug : string) : string :=
  share_link (PUBLIC_BASE_URL aenv) slug.
End Admin.

(** ** Vocabulary for the creation of a form *)

(** The world after one reading of the clock. *)
Definition ticked (w : World) : World :=
  mkWorld (form_coll w) (submission_coll w) (next_oid w) (S (clock_reads w))
          (trace w).

(** The title of the tab [create_form] makes in world [w]. *)
Definition tab_title (aenv : AdminEnv) (form_title : string) (w : World)
  : string :=
  (take 25 form_title ++ "-"
   ++ str_int (epoch_seconds aenv
                 (utcnow (services aenv) (clock_reads w))))%string.

(** The two calls that make the tab. *)
Definition tab_calls (tab : string) (fs : list RawField) : list SheetCall :=
  [AddSheet tab 1000 (List.length (headers fs) + 2);
   UpdateValues (tab ++ "!A1") (headers fs)].

(** The slug [create_form] gives a form in world [w]: the clock is read
    once for the tab and once more for the slug. *)
Definition new_slug (aenv : AdminEnv) (form_title : string) (w : World)
  : string :=
  slug_of form_title
          (epoch_seconds aenv
             (utcnow (services aenv) (S (clock_reads w)))).

(** ** Sample requests for the creation of a form *)

Definition office : AdminEnv :=
  mkAdminEnv healthy "https://forms.example/" (fun _ => 1715938200%Z)
             (fun _ _ _ => None) (fun _ _ => None).

Definition lunch : CreateFormRequest :=
  mkCreateFormRequest
    "Team Lunch" None
    [mkRaw (Some "name") (Some "text") (Some "Name") None (Some true)
           None None].

(** A field without a label. *)
Definition unlabelled : CreateFormRequest :=
  mkCreateFormRequest
    "RSVP" None
    [mkRaw (Some "name") (Some "text") None None (Some true) None None].

Definition blank_office : AdminWorld :=
  mkAdminWorld (mkWorld [] [] 1 0 []) [].

(** ** Vocabulary for the multipart loop *)

(** The attribute map after the parts [items] have gone into [d]. *)
Definition fold_parts (env : Env) (items : list (string * form_value))
           (d : dict value) : dict value :=
  fold_left (fun acc kv =>
               merge_text (fst kv) (part_text env (fst kv) (snd kv)) acc)
            items d.

(** The attribute map of a request. *)
Definition payload_data (env : Env) (request : Request) : dict value :=
  match request with
  | JsonRequest (Some d) => d
  | JsonRequest None => []
  | FormRequest parts => fold_parts env parts []
  end.

(** The same environment with another answer to the permission call. *)
Definition with_permissions (env : Env) (p : string -> option exn) : Env :=
  mkEnv (SERVICE_ACCOUNT_JSON env) (MASTER_SPREADSHEET_ID env)
        (DRIVE_FOLDER_ID env) (credentials_error env) (build_error env)
        (spreadsheets_get env) (files_create env) p (values_append env)
        (utcnow env) (upload_repr env).

(** [del d[k]] *)
Fixpoint dict_remove (V : Type) (k : string) (d : dict V) : dict V :=
  match d with
  | [] => []
  | (k', v) :: d' =>
      if String.eqb k k' then dict_remove k d' else (k', v) :: dict_remove k d'
  end.

(** The keys of a list in the order of their first occurrence. *)
Definition add_key (ks : list string) (k : string) : list string :=
  if existsb (String.eqb k) ks then ks else ks ++ [k].

Definition first_arrivals (ks : list string) : list string :=
  fold_left add_key ks [].

(** The Google credentials are not configured. *)
Definition unconfigured : Env :=
  mkEnv None (Some "master") (Some "folder") None None None
        drive_ok (fun _ => None) (fun _ _ => None) ticking part_repr.

(** * Properties *)

Ltac monad_run :=
  unfold bind, ret, raise, emit, try_except in *; simpl in *.

Ltac only_events evs :=
  repeat split; simpl; exists evs; simpl;
  split; [now rewrite ?app_nil_r, <- ?app_assoc | repeat constructor].

(** ** Dictionaries *)

Section DictFacts.
Variable V : Type.
Implicit Types (d : dict V) (k : string) (v : V).

Lemma dict_get_set_same k v d : dict_get k (dict_set k v d) = Some v.
Proof.
  induction d as [|[k' v'] d IH]; simpl.
  - now rewrite String.eqb_refl.
  - destruct (String.eqb k k') eqn:E; simpl; rewrite E; auto.
Qed.

Lemma dict_get_set_other k k' v d :
  k <> k' -> dict_get k (dict_set k' v d) = dict_get k d.
Proof.
  intros N. induction d as [|[k0 v0] d IH]; simpl.
  - destruct (String.eqb_spec k k'); congruence.
  - destruct (String.eqb_spec k' k0) as [->|N0]; simpl.
    + destruct (String.eqb_spec k k0); congruence.
    + destruct (String.eqb_spec k k0); auto.
Qed.

Lemma dict_keys_set k k' v d :
  In k (dict_keys (dict_set k' v d)) <-> k = k' \/ In k (dict_keys d).
Proof.
  unfold dict_keys. induction d as [|[k0 v0] d IH]; simpl.
  - intuition.
  - destruct (String.eqb_spec k' k0) as [->|N0]; simpl.
    + intuition.
    + rewrite IH. intuition.
Qed.

Lemma dict_get_none k d : dict_get k d = None <-> ~ In k (dict_keys d).
Proof.
  unfold dict_keys. induction d as [|[k0 v0] d IH]; simpl.
  - intuition.
  - destruct (String.eqb_spec k k0) as [->|N0].
    + split; [discriminate | intros H; exfalso; apply H; now left].
    + rewrite IH. intuition congruence.
Qed.


Lemma dict_get_in_keys k v d : dict_get k d = Some v -> In k (dict_keys d).
Proof.
  intros H. destruct (in_dec string_dec k (dict_keys d)) as [I|I]; auto.
  apply dict_get_none in I. congruence.
Qed.

(** A key that is not there yet goes last. *)
Lemma dict_set_fresh k v d :
  ~ In k (dict_keys d) -> dict_set k v d = d ++ [(k, v)].
Proof.
  unfold dict_keys. induction d as [|[k0 v0] d IH]; simpl; intros H; auto.
  destruct (String.eqb_spec k k0) as [->|N0].
  - exfalso. auto.
  - f_equal. auto.
Qed.
End DictFacts.

(** ** The lookup from identifier to field *)

(** With identifiers declared once each, the lookup is the field list. *)
Lemma field_map_unique_ids (fs : list FormField) :
  NoDup (map id fs) -> field_map fs = map (fun f => (id f, f)) fs.
Proof.
  unfold field_map.
  assert (G : forall acc : list FormField,
             NoDup (map id (acc ++ fs)) ->
             fold_left (fun m f => dict_set (id f) f m) fs
                       (map (fun f => (id f, f)) acc)
             = map (fun f => (id f, f)) (acc ++ fs)).
  { induction fs as [|f fs IH]; intros acc ND; simpl.
    - now rewrite app_nil_r.
    - rewrite dict_set_fresh.
      + replace (map (fun f0 => (id f0, f0)) acc ++ [(id f, f)])
          with (map (fun f0 => (id f0, f0)) (acc ++ [f]))
          by (now rewrite map_app).
        rewrite IH; rewrite <- app_assoc; simpl; auto.
      + unfold dict_keys. rewrite map_map. simpl.
        rewrite map_app in ND. simpl in ND.
        apply NoDup_remove_2 in ND. intros I. apply ND.
        apply in_or_app. now left. }
  intros ND. apply (G []). exact ND.
Qed.

(** Whatever the lookup holds was declared. *)
Lemma field_map_declared (fs : list FormField) fid field :
  In (fid, field) (field_map fs) -> In field fs /\ id field = fid.
Proof.
  unfold field_map.
  assert (G : forall m : dict FormField,
             (forall p, In p m -> In (snd p) fs /\ id (snd p) = fst p) ->
             forall fs', incl fs' fs ->
             forall p, In p (fold_left (fun m f => dict_set (id f) f m) fs' m)
                       -> In (snd p) fs /\ id (snd p) = fst p).
  { intros m Hm fs'. revert m Hm.
    induction fs' as [|f fs' IH]; intros m Hm Hin p Hp; simpl in Hp; auto.
    eapply IH; [| |exact Hp].
    - clear Hp p. intros p Hp.
      assert (S : forall m0 : dict FormField,
                 (forall q, In q m0 -> In (snd q) fs /\ id (snd q) = fst q) ->
                 In p (dict_set (id f) f m0) ->
                 In (snd p) fs /\ id (snd p) = fst p).
      { induction m0 as [|[k0 v0] m0 IHm]; simpl; intros Hq Hset.
        - destruct Hset as [<-|[]]. simpl.
          split; [apply Hin; now left | reflexivity].
        - destruct (String.eqb_spec (id f) k0) as [E|N].
          + destruct Hset as [<-|I]; simpl.
            * split; [apply Hin; now left | now symmetry].
            * apply Hq. now right.
          + destruct Hset as [<-|I].
            * apply Hq. now left.
            * apply IHm; [intros q Iq; apply Hq; now right | exact I]. }
      apply (S m); auto.
    - intros x Hx. apply Hin. now right. }
  intros H. apply (G [] (fun p (F : In p []) => match F with end) fs
                     (incl_refl fs) (fid, field) H).
Qed.

(** ** What each stage does to the world *)

Lemma only_refl P w : only P w w.
Proof.
  repeat split. exists []. now rewrite app_nil_r.
Qed.

Section Effects.
Variable env : Env.

Lemma get_google_services_pure w :
  exists r, get_google_services env w = (r, w).
Proof.
  unfold get_google_services. monad_run.
  destruct (opt_truthy (SERVICE_ACCOUNT_JSON env));
    destruct (credentials_error env); destruct (build_error env);
    eexists; reflexivity.
Qed.

Lemma ensure_master_sheet_pure w :
  exists r, ensure_master_sheet env w = (r, w).
Proof.
  unfold ensure_master_sheet. monad_run.
  destruct (opt_truthy (MASTER_SPREADSHEET_ID env));
    [destruct (spreadsheets_get env) as [[]|]|]; eexists; reflexivity.
Qed.

(** An upload talks to Drive only, and what it returns is what Drive
    answered: the view link, or else the content link. *)
Lemma upload_effects f w r w' :
  upload_file_to_drive env f w = (r, w') ->
  only is_drive_event w w' /\ clock_reads w' = clock_reads w /\
  forall l, r = inr l ->
            exists d, files_create env f = inr d /\
                      l = py_or (webViewLink d) (webContentLink d).
Proof.
  unfold upload_file_to_drive.
  destruct (get_google_services_pure w) as [g G].
  unfold bind at 1. rewrite G.
  destruct g as [e|[]].
  { intros [= <- <-]. split; [apply only_refl|]. split; auto. discriminate. }
  monad_run.
  destruct (opt_truthy (DRIVE_FOLDER_ID env)).
  2:{ intros [= <- <-]. split; [apply only_refl|]. split; auto.
      discriminate. }
  destruct (files_create env f) as [e|d] eqn:C.
  { intros [= <- <-]. split; [only_events [DriveCreate f]|].
    split; auto. discriminate. }
  destruct (permissions_create env (drive_id d)); intros [= <- <-];
    (split; [only_events [DriveCreate f; DrivePermission (drive_id d)]|]);
    (split; auto); intros l [= <-]; exists d; auto.
Qed.

(** Validation changes nothing. *)
Lemma required_loop_pure items d w :
  exists r, required_loop items d w = (r, w).
Proof.
  induction items as [|[fid field] items IH]; simpl.
  - eexists; reflexivity.
  - destruct (is_missing d fid field); auto. eexists; reflexivity.
Qed.

(** The mirror step never raises and leaves the database alone; the one
    row it may send is built from a fresh reading of the clock. *)
Lemma mirror_effects sheet fs d w :
  exists w' evs,
    try_except (append_submission_to_sheet env sheet fs d)
               (fun e => emit (Print "Sheet append error:" e)) w
    = (inr tt, w') /\
    form_coll w' = form_coll w /\
    submission_coll w' = submission_coll w /\
    next_oid w' = next_oid w /\
    trace w' = trace w ++ evs /\
    Forall is_mirror_event evs /\
    forall rng row,
      In (SheetAppend rng row) evs ->
      rng = range_of sheet /\
      row = build_row (utcnow env (clock_reads w)) fs d.
Proof.
  unfold append_submission_to_sheet, try_except.
  destruct (get_google_services_pure w) as [g G].
  unfold bind at 1. rewrite G.
  destruct g as [e|[]].
  { exists (mkWorld (form_coll w) (submission_coll w) (next_oid w)
                    (clock_reads w)
                    (trace w ++ [Print "Sheet append error:" e])),
           [Print "Sheet append error:" e].
    repeat (split; [reflexivity|]). split; [repeat constructor|].
    intros rng row [D|[]]. discriminate. }
  destruct (ensure_master_sheet_pure w) as [m Hm].
  unfold bind at 1. rewrite Hm.
  destruct m as [e|[]].
  { exists (mkWorld (form_coll w) (submission_coll w) (next_oid w)
                    (clock_reads w)
                    (trace w ++ [Print "Sheet append error:" e])),
           [Print "Sheet append error:" e].
    repeat (split; [reflexivity|]). split; [repeat constructor|].
    intros rng row [D|[]]. discriminate. }
  unfold now. monad_run.
  match goal with
  | |- context [values_append env ?a ?b] =>
      destruct (values_append env a b) as [e|] eqn:A
  end.
  - eexists.
    exists [SheetAppend (range_of sheet)
                        (build_row (utcnow env (clock_reads w)) fs d);
            Print "Sheet append error:" e].
    split; [reflexivity|]. simpl.
    repeat (split; [reflexivity|]).
    split; [now rewrite <- app_assoc|]. split; [repeat constructor|].
    intros rng row [H|[H|[]]]; [|discriminate]. now injection H as <- <-.
  - eexists.
    exists [SheetAppend (range_of sheet)
                        (build_row (utcnow env (clock_reads w)) fs d)].
    split; [reflexivity|]. simpl.
    repeat (split; [reflexivity|]). split; [repeat constructor|].
    intros rng row [H|[]]. now injection H as <- <-.
Qed.
End Effects.

(** ** The multipart loop *)

Lemma merge_text_same k v d :
  dict_get k (merge_text k v d) = absorb (dict_get k d) [v].
Proof.
  unfold merge_text. simpl.
  destruct (dict_get k d) as [[x|xs]|]; now rewrite dict_get_set_same.
Qed.

Lemma merge_text_other k k' v d :
  k <> k' -> dict_get k (merge_text k' v d) = dict_get k d.
Proof.
  intros N. unfold merge_text.
  destruct (dict_get k' d) as [[x|xs]|]; now apply dict_get_set_other.
Qed.

Lemma merge_text_keys k k' v d :
  In k (dict_keys (merge_text k' v d)) <-> k = k' \/ In k (dict_keys d).
Proof.
  unfold merge_text.
  destruct (dict_get k' d) as [[x|xs]|]; apply dict_keys_set.
Qed.

Lemma absorb_seq xs vs :
  absorb (Some (Seq xs)) vs = Some (Seq (xs ++ map SStr vs)).
Proof.
  revert xs. induction vs as [|v vs IH]; intros xs; simpl.
  - now rewrite app_nil_r.
  - rewrite IH. now rewrite <- app_assoc.
Qed.

Lemma absorb_none vs : absorb None vs = encode vs.
Proof.
  destruct vs as [|v [|v' vs]]; simpl; auto.
  now rewrite absorb_seq.
Qed.

Section Loop.
Variable env : Env.

(** No value the parser hands over passes the test of line 297: the loop
    folds every part into the attribute map as text, calls nothing and
    leaves the links as they were. *)
Lemma loop_parsed parts : forall d links w,
  multi_items_loop env (request_form parts) d links w
  = (inr (fold_parts env parts d, links), w).
Proof.
  induction parts as [|[k [v|u]] rest IH]; intros d links w; simpl.
  - reflexivity.
  - apply IH.
  - apply IH.
Qed.

Lemma fold_parts_get parts : forall d k,
  dict_get k (fold_parts env parts d)
  = absorb (dict_get k d) (values_of env k parts).
Proof.
  induction parts as [|[k0 v] rest IH]; intros d k; simpl; [reflexivity|].
  unfold fold_parts in *. simpl. rewrite IH.
  destruct (String.eqb_spec k k0) as [->|N].
  - now rewrite merge_text_same.
  - now rewrite merge_text_other.
Qed.

Lemma fold_parts_keys parts : forall d k,
  In k (dict_keys (fold_parts env parts d))
  <-> In k (dict_keys d) \/ In k (map fst parts).
Proof.
  induction parts as [|[k0 v] rest IH]; intros d k; simpl.
  - intuition.
  - unfold fold_parts in *. simpl. rewrite IH, merge_text_keys.
    intuition.
Qed.

(** Reading a request never raises, calls nothing and finds no link. *)
Lemma read_payload_reads request w :
  read_payload env request w = (inr (payload_data env request, []), w).
Proof.
  destruct request as [[d|]|parts]; simpl; try reflexivity.
  apply loop_parsed.
Qed.

(** The attribute map read from a multipart body. *)
Lemma loop_data parts w d links w1 :
  read_payload env (FormRequest parts) w = (inr (d, links), w1) ->
  (forall k, dict_get k d = encode (values_of env k parts)) /\
  (forall k, In k (dict_keys d) <-> In k (map fst parts)) /\
  links = [] /\ w1 = w.
Proof.
  rewrite read_payload_reads. intros [= <- <- <-]. simpl.
  split; [|split; [|split; reflexivity]]; intros k.
  - rewrite fold_parts_get. apply absorb_none.
  - rewrite fold_parts_keys. simpl. intuition.
Qed.
End Loop.

(** ** One run of [submit_form], stage by stage *)

Section Run.
Variable env : Env.

Lemma submit_form_run slug request w :
  exists found,
    find_one_form slug w = (inr found, w) /\
    match found with
    | None => submit_form env slug request w = (inl FormNotFound, w)
    | Some form_doc =>
        exists p w1,
        read_payload env request w = (p, w1) /\
        match p with
        | inl e => submit_form env slug request w = (inl e, w1)
        | inr (d, links) =>
            exists v,
            required_validation (fields form_doc) d w1 = (v, w1) /\
            match v with
            | inl e => submit_form env slug request w = (inl e, w1)
            | inr _ =>
                match checked_links links with
                | None =>
                    submit_form env slug request w
                    = (inl (Exception "ValidationError"), w1)
                | Some ls =>
                    exists w' mir,
                    submit_form env slug request w
                    = (inr (mkResponse "ok" (str_oid (next_oid w1))), w') /\
                    form_coll w' = form_coll w1 /\
                    submission_coll w'
                    = submission_coll w1 ++ [committed env form_doc d ls w1] /\
                    next_oid w' = S (next_oid w1) /\
                    trace w'
                    = trace w1 ++ DbInsert "submission" (next_oid w1) :: mir /\
                    Forall is_mirror_event mir /\
                    forall rng row,
                      In (SheetAppend rng row) mir ->
                      rng = range_of (sheet_name form_doc) /\
                      row = build_row (utcnow env (S (clock_reads w1)))
                                      (fields form_doc) (combined d links)
                end
            end
        end
    end.
Proof.
  eexists. split; [reflexivity|].
  match goal with
  | |- match ?f with _ => _ end => destruct f as [form_doc|] eqn:F
  end;
    [|unfold submit_form, bind, find_one_form; now rewrite F].
  destruct (read_payload env request w) as [p w1] eqn:P.
  exists p, w1. split; [reflexivity|].
  destruct p as [e|[d links]].
  { unfold submit_form, find_one_form, bind. now rewrite F, P. }
  destruct (required_loop_pure (field_map (fields form_doc)) d w1) as [v V].
  exists v. split; [exact V|].
  destruct v as [e|[]].
  { unfold submit_form, find_one_form, bind. rewrite F, P.
    unfold required_validation. now rewrite V. }
  destruct (checked_links links) as [ls|] eqn:L.
  2:{ unfold submit_form, find_one_form, bind. rewrite F, P.
      unfold required_validation. rewrite V.
      unfold SubmissionSchema. now rewrite L. }
  set (w2 := mkWorld (form_coll w1)
                     (submission_coll w1 ++ [committed env form_doc d ls w1])
                     (S (next_oid w1)) (S (clock_reads w1))
                     (trace w1 ++ [DbInsert "submission" (next_oid w1)])).
  destruct (mirror_effects env (sheet_name form_doc) (fields form_doc)
                           (combined d links) w2)
    as (w' & mir & R & Fc & Sc & Nc & Tc & Am & Rows).
  exists w', mir.
  split.
  { unfold submit_form, find_one_form, bind. rewrite F, P.
    unfold required_validation. rewrite V.
    unfold SubmissionSchema. rewrite L.
    unfold create_document, now, bind, ret. simpl.
    unfold committed in w2. fold w2. now rewrite R. }
  rewrite Fc, Sc, Nc, Tc. subst w2. simpl.
  repeat (split; [reflexivity|]).
  split; [now rewrite <- app_assoc|]. split; [exact Am|exact Rows].
Qed.
End Run.

(** ** The required check *)

Lemma required_loop_accepts items d w :
  (forall p, In p items -> is_missing d (fst p) (snd p) = false) ->
  required_loop items d w = (inr tt, w).
Proof.
  induction items as [|[fid field] items IH]; intros H; simpl; auto.
  pose proof (H (fid, field) (or_introl eq_refl)) as E. simpl in E.
  rewrite E. apply IH. intros p I. apply H. now right.
Qed.

Lemma required_loop_rejects items d w p :
  In p items -> is_missing d (fst p) (snd p) = true ->
  exists pre fid0 field0 post,
    items = pre ++ (fid0, field0) :: post /\
    (forall q, In q pre -> is_missing d (fst q) (snd q) = false) /\
    is_missing d fid0 field0 = true /\
    (In p pre -> False) /\
    required_loop items d w
    = (inl (RequiredFieldMissing (display_name fid0 field0)), w).
Proof.
  induction items as [|[fid field] items IH]; intros I Mp; [destruct I|].
  simpl. destruct (is_missing d fid field) eqn:E.
  - exists [], fid, field, items. repeat split; auto; intros q [].
  - destruct I as [<-|I]; [simpl in Mp; congruence|].
    destruct (IH I Mp) as (pre & f0 & fl0 & post & -> & A & B & C & D).
    exists ((fid, field) :: pre), f0, fl0, post.
    split; [reflexivity|]. split.
    { intros q [<-|Q]; auto. }
    split; [exact B|]. split; [|exact D].
    intros [<-|Q]; [simpl in Mp; congruence|auto].
Qed.

Lemma is_missing_retype g d fid f :
  is_missing d fid (retype g f) = is_missing d fid f.
Proof. reflexivity. Qed.

Lemma field_map_retype g fs :
  field_map (map (retype g) fs)
  = map (fun p => (fst p, retype g (snd p))) (field_map fs).
Proof.
  unfold field_map.
  change (@nil (string * FormField))
    with (map (fun p : string * FormField => (fst p, retype g (snd p))) [])
    at 1.
  generalize (@nil (string * FormField)) as m.
  induction fs as [|f fs IH]; intros m; simpl; auto.
  rewrite <- IH. f_equal.
  induction m as [|[k0 v0] m IHm]; simpl; auto.
  destruct (String.eqb (id f) k0); simpl; auto. now rewrite IHm.
Qed.

Lemma required_loop_retype g items d w :
  required_loop (map (fun p => (fst p, retype g (snd p))) items) d w
  = required_loop items d w.
Proof.
  induction items as [|[fid field] items IH]; simpl; auto.
  rewrite is_missing_retype.
  destruct (is_missing d fid field); [reflexivity | apply IH].
Qed.

Lemma read_payload_effects env request w r w1 :
  read_payload env request w = (r, w1) ->
  only is_drive_event w w1 /\ clock_reads w1 = clock_reads w.
Proof.
  rewrite read_payload_reads. intros [= <- <-].
  split; [apply only_refl|reflexivity].
Qed.

(** A run whose payload passes the required check: the Submission is
    stored with the attribute map read and no link, then mirrored. *)
Lemma accepted_when_valid env slug request w form_doc :
  find_one_form slug w = (inr (Some form_doc), w) ->
  required_validation (fields form_doc) (payload_data env request) w
  = (inr tt, w) ->
  exists w' mir,
    submit_form env slug request w
    = (inr (mkResponse "ok" (str_oid (next_oid w))), w') /\
    submission_coll w'
    = submission_coll w
      ++ [committed env form_doc (payload_data env request) [] w] /\
    trace w' = trace w ++ DbInsert "submission" (next_oid w) :: mir /\
    Forall is_mirror_event mir.
Proof.
  intros Hform Hvalid.
  destruct (submit_form_run env slug request w) as (found & Ff & R).
  rewrite Hform in Ff. injection Ff as <-.
  destruct R as (p & w1 & P & R).
  rewrite read_payload_reads in P. injection P as <- <-.
  destruct R as (v & V & R). rewrite Hvalid in V. injection V as <-.
  simpl in R. destruct R as (w' & mir & R & _ & Sc & _ & Tc & Am & _).
  exists w', mir. auto.
Qed.

(** [str] of an upload object is never the empty text. *)
Lemma str_upload_truthy env k u : str_truthy (str_upload env k u) = true.
Proof. reflexivity. Qed.

Lemma values_of_app env k pre post :
  values_of env k (pre ++ post) = values_of env k pre ++ values_of env k post.
Proof.
  induction pre as [|[k0 v] pre IH]; simpl; [reflexivity|].
  destruct (String.eqb k k0); simpl; now rewrite IH.
Qed.

Lemma values_of_in env k v parts :
  In (k, v) parts -> In (part_text env k v) (values_of env k parts).
Proof.
  induction parts as [|[k0 v0] parts IH]; simpl; [auto|].
  intros [E|I].
  - injection E as -> ->. rewrite String.eqb_refl. now left.
  - destruct (String.eqb_spec k k0) as [->|N]; [right|]; auto.
Qed.

(** A key under which some text that is not empty arrived is truthy. *)
Lemma encode_truthy vs v :
  In v vs -> str_truthy v = true -> truthy_opt (encode vs) = true.
Proof.
  destruct vs as [|a [|b vs]]; simpl.
  - intros [].
  - intros [->|[]] T. exact T.
  - reflexivity.
Qed.

Lemma not_drive_of_mirror evs :
  Forall is_mirror_event evs -> Forall (fun e => ~ is_drive_event e) evs.
Proof.
  intros H. eapply Forall_impl; [|exact H].
  intros [] M; simpl in *; auto.
Qed.

Lemma split_position (A : Type) (p x : A) pre post :
  In p (pre ++ x :: post) -> (In p pre -> False) -> x = p \/ In p post.
Proof.
  intros I N. apply in_app_or in I. destruct I as [I|[I|I]]; auto.
  now destruct (N I).
Qed.

(** ** Claims about the required check *)

(** Rejection at the first required field without a truthy entry. *)
Lemma first_missing_rejected env slug request w form_doc d links w1 fid field :
  find_one_form slug w = (inr (Some form_doc), w) ->
  read_payload env request w = (inr (d, links), w1) ->
  In (fid, field) (field_map (fields form_doc)) ->
  required field = true ->
  truthy_opt (dict_get fid d) = false ->
  exists pre fid0 field0 post,
    field_map (fields form_doc) = pre ++ (fid0, field0) :: post /\
    (forall q, In q pre -> is_missing d (fst q) (snd q) = false) /\
    required field0 = true /\
    truthy_opt (dict_get fid0 d) = false /\
    ((fid0, field0) = (fid, field) \/ In (fid, field) post) /\
    submit_form env slug request w
    = (inl (RequiredFieldMissing (display_name fid0 field0)), w1) /\
    submission_coll w1 = submission_coll w.
Proof.
  intros Hform Hread Hfield Hreq Hmiss.
  destruct (submit_form_run env slug request w) as (found & Ff & R).
  rewrite Hform in Ff. injection Ff as <-.
  destruct R as (p & w1' & P & R). rewrite Hread in P. injection P as <- <-.
  destruct R as (v & V & R).
  assert (Mp : is_missing d (fst (fid, field)) (snd (fid, field)) = true).
  { unfold is_missing. simpl. now rewrite Hreq, Hmiss. }
  destruct (required_loop_rejects (field_map (fields form_doc)) d w1
                                  (fid, field) Hfield Mp)
    as (pre & fid0 & field0 & post & E & A & B & C & D).
  unfold required_validation in V. rewrite D in V. injection V as <-.
  exists pre, fid0, field0, post.
  unfold is_missing in B. apply andb_prop in B. destruct B as [B1 B2].
  apply negb_true_iff in B2.
  split; [exact E|]. split; [exact A|]. split; [exact B1|].
  split; [exact B2|]. split.
  { rewrite E in Hfield. now apply split_position with (pre := pre). }
  split; [exact R|].
  apply read_payload_effects in Hread. now destruct Hread as [(_ & S & _) _].
Qed.

(** C1 (amended).  When the payload has been read into an attribute map
    and some field of the identifier lookup is required and has no truthy
    entry there, [submit_form] raises [RequiredFieldMissing] naming the
    first such field in lookup order (its label, or its identifier when the
    label is empty) and no Submission is stored.  The field named is the
    given one unless a required field before it is missing too. *)
Theorem missing_required_rejected env slug request w form_doc d links w1
        fid field
        (Hform : find_one_form slug w = (inr (Some form_doc), w))
        (Hread : read_payload env request w = (inr (d, links), w1))
        (Hfield : In (fid, field) (field_map (fields form_doc)))
        (Hreq : required field = true)
        (Hmiss : truthy_opt (dict_get fid d) = false) :
  exists pre fid0 field0 post,
    field_map (fields form_doc) = pre ++ (fid0, field0) :: post /\
    (forall q, In q pre -> is_missing d (fst q) (snd q) = false) /\
    required field0 = true /\
    truthy_opt (dict_get fid0 d) = false /\
    ((fid0, field0) = (fid, field) \/ In (fid, field) post) /\
    submit_form env slug request w
    = (inl (RequiredFieldMissing (display_name fid0 field0)), w1) /\
    submission_coll w1 = submission_coll w.
Proof.
  now apply first_missing_rejected with (links := links).
Qed.

Lemma missing_required_rejected_witness :
  exists pre fid0 field0 post,
    field_map (fields rsvp) = pre ++ (fid0, field0) :: post /\
    (forall q, In q pre ->
               is_missing [("guests", Scalar (SStr "2"))] (fst q) (snd q)
               = false) /\
    required field0 = true /\
    truthy_opt (dict_get fid0 [("guests", Scalar (SStr "2"))]) = false /\
    ((fid0, field0) = ("name", field_of "name" "text" "" true) \/
     In ("name", field_of "name" "text" "" true) post) /\
    submit_form healthy "rsvp"
                (JsonRequest (Some [("guests", Scalar (SStr "2"))]))
                (world_of rsvp)
    = (inl (RequiredFieldMissing (display_name fid0 field0)), world_of rsvp) /\
    submission_coll (world_of rsvp) = submission_coll (world_of rsvp).
Proof.
  apply (@missing_required_rejected
           healthy "rsvp" (JsonRequest (Some [("guests", Scalar (SStr "2"))]))
           (world_of rsvp) rsvp [("guests", Scalar (SStr "2"))] []
           (world_of rsvp) "name" (field_of "name" "text" "" true)).
  - reflexivity.
  - reflexivity.
  - simpl. left. reflexivity.
  - reflexivity.
  - reflexivity.
Defined.

(** C1 as stated fails: with two required fields missing, the error names
    the first one, not the other. *)
Lemma missing_required_names_first_only :
  let email := field_of "email" "email" "Email" true in
  let r := submit_form healthy "contact" (JsonRequest None)
                       (world_of contact) in
  In email (fields contact) /\
  required email = true /\
  dict_get (id email) (@nil (string * value)) = None /\
  fst r = inl (RequiredFieldMissing "Name") /\
  fst r <> inl (RequiredFieldMissing (display_name (id email) email)) /\
  submission_coll (snd r) = [].
Proof.
  vm_compute. repeat split; auto. discriminate.
Qed.

(** C7.  An attribute map with a truthy entry for every required field
    passes validation, whatever the declared types: re-declaring every
    type changes nothing, and a JSON submission of that map is stored. *)
Theorem no_type_checks env slug w form_doc d
        (Hform : find_one_form slug w = (inr (Some form_doc), w))
        (Hall : forall f, In f (fields form_doc) -> required f = true ->
                          truthy_opt (dict_get (id f) d) = true) :
  (forall w1, required_validation (fields form_doc) d w1 = (inr tt, w1)) /\
  (forall g w1,
      required_validation (map (retype g) (fields form_doc)) d w1
      = required_validation (fields form_doc) d w1) /\
  exists w',
    submit_form env slug (JsonRequest (Some d)) w
    = (inr (mkResponse "ok" (str_oid (next_oid w))), w') /\
    submission_coll w'
    = submission_coll w ++ [committed env form_doc d [] w].
Proof.
  assert (V : forall w1, required_validation (fields form_doc) d w1
                         = (inr tt, w1)).
  { intros w1. apply required_loop_accepts. intros [fid field] I.
    apply field_map_declared in I. destruct I as [I <-]. simpl.
    unfold is_missing. destruct (required field) eqn:Rq; auto.
    now rewrite (Hall field I Rq). }
  split; [exact V|]. split.
  { intros g w1. unfold required_validation.
    rewrite field_map_retype. apply required_loop_retype. }
  destruct (submit_form_run env slug (JsonRequest (Some d)) w)
    as (found & Ff & R).
  rewrite Hform in Ff. injection Ff as <-.
  destruct R as (p & w1 & P & R). simpl in P. injection P as <- <-.
  destruct R as (v & V' & R). rewrite V in V'. injection V' as <-.
  simpl in R. destruct R as (w' & mir & R & _ & Sc & _).
  exists w'. split; [exact R|exact Sc].
Qed.

Lemma no_type_checks_witness :
  (forall w1, required_validation (fields contact)
                [("name", Scalar (SStr "Ana"));
                 ("email", Scalar (SStr "not an address"))] w1
              = (inr tt, w1)) /\
  (forall g w1,
      required_validation (map (retype g) (fields contact))
        [("name", Scalar (SStr "Ana"));
         ("email", Scalar (SStr "not an address"))] w1
      = required_validation (fields contact)
          [("name", Scalar (SStr "Ana"));
           ("email", Scalar (SStr "not an address"))] w1) /\
  exists w',
    submit_form healthy "contact"
                (JsonRequest (Some [("name", Scalar (SStr "Ana"));
                                    ("email", Scalar (SStr "not an address"))]))
                (world_of contact)
    = (inr (mkResponse "ok" (str_oid (next_oid (world_of contact)))), w') /\
    submission_coll w'
    = submission_coll (world_of contact)
      ++ [committed healthy contact
                    [("name", Scalar (SStr "Ana"));
                     ("email", Scalar (SStr "not an address"))] []
                    (world_of contact)].
Proof.
  apply (@no_type_checks healthy "contact" (world_of contact) contact).
  - reflexivity.
  - intros f [<-|[<-|[]]] _; reflexivity.
Defined.

(** C9.  The check of line 314 reads the attribute map, and that is
    where a part with a [filename] parameter ends up: the test of line 297
    fails for the object the parser built, so the part goes in as the text
    [str] prints, which is never empty.  A key under which such a part
    arrived is therefore never reported missing, and a submission whose
    required fields all arrive as file parts is accepted: the Submission
    is stored, with no link, and mirrored. *)
Theorem required_file_part_is_accepted env slug parts w form_doc
        (Hform : find_one_form slug w = (inr (Some form_doc), w))
        (Hall : forall f, In f (fields form_doc) -> required f = true ->
                          exists u, In (id f, File u) parts) :
  (forall k u field,
      In (k, File u) parts ->
      is_missing (payload_data env (FormRequest parts)) k field = false) /\
  exists w' mir,
    submit_form env slug (FormRequest parts) w
    = (inr (mkResponse "ok" (str_oid (next_oid w))), w') /\
    submission_coll w'
    = submission_coll w ++ [committed env form_doc (fold_parts env parts [])
                                      [] w] /\
    trace w' = trace w ++ DbInsert "submission" (next_oid w) :: mir /\
    Forall is_mirror_event mir.
Proof.
  assert (T : forall k u, In (k, File u) parts ->
                          truthy_opt (dict_get k (fold_parts env parts []))
                          = true).
  { intros k u I. rewrite fold_parts_get. simpl. rewrite absorb_none.
    apply encode_truthy with (v := str_upload env k u).
    - exact (values_of_in env _ _ _ I).
    - apply str_upload_truthy. }
  split.
  { intros k u field I. unfold is_missing. simpl.
    rewrite (T k u I). apply andb_false_r. }
  apply (@accepted_when_valid env slug (FormRequest parts) w form_doc Hform).
  apply required_loop_accepts. intros [fid field] I.
  apply field_map_declared in I. destruct I as [I <-]. simpl.
  unfold is_missing. destruct (required field) eqn:Rq; [|reflexivity].
  destruct (Hall field I Rq) as [u Hu]. simpl.
  now rewrite (T _ _ Hu).
Qed.

Lemma required_file_part_is_accepted_witness :
  (forall k u field,
      In (k, File u) [("resume", File cv)] ->
      is_missing (payload_data healthy (FormRequest [("resume", File cv)]))
                 k field = false) /\
  exists w' mir,
    submit_form healthy "apply" (FormRequest [("resume", File cv)])
                (world_of (form_of "apply"
                                   [field_of "resume" "file" "Resume" true]))
    = (inr (mkResponse "ok" "10"), w') /\
    submission_coll w'
    = [] ++ [mkSubmission
               10 "1"
               [("resume", Scalar (SStr (str_upload healthy "resume" cv)))]
               [] None None t_commit] /\
    trace w' = [] ++ DbInsert "submission" 10 :: mir /\
    Forall is_mirror_event mir.
Proof.
  apply (@required_file_part_is_accepted
           healthy "apply" [("resume", File cv)]
           (world_of (form_of "apply"
                              [field_of "resume" "file" "Resume" true]))
           (form_of "apply" [field_of "resume" "file" "Resume" true])).
  - reflexivity.
  - intros f [<-|[]] _. exists cv. now left.
Defined.

(** ** Claims about the order of the stages *)


(** ** Claims about the mirror step *)

Lemma upload_with_sink env sheet_ref probe append f :
  upload_file_to_drive (with_sink env sheet_ref probe append) f
  = upload_file_to_drive env f.
Proof. reflexivity. Qed.

Lemma read_payload_with_sink env sheet_ref probe append request w :
  read_payload (with_sink env sheet_ref probe append) request w
  = read_payload env request w.
Proof.
  destruct request as [[d|]|items]; reflexivity.
Qed.

(** C3.  Once the Submission of a run has been stored, the run answers
    ["ok"] with the identifier of that Submission and the Submission is
    still the last of the collection, whatever the spreadsheet does: under
    any other spreadsheet reference, probe and append behaviour, raising
    ones included, the answer and the collection are the same. *)
Theorem mirror_failure_isolated env slug request w r w'
        (Hrun : submit_form env slug request w = (r, w'))
        (Hcommit : submission_coll w' <> submission_coll w) :
  exists doc,
    submission_coll w' = submission_coll w ++ [doc] /\
    r = inr (mkResponse "ok" (str_oid (sub_oid doc))) /\
    forall sheet_ref probe append,
      let q := submit_form (with_sink env sheet_ref probe append)
                           slug request w in
      fst q = r /\ submission_coll (snd q) = submission_coll w'.
Proof.
  destruct (submit_form_run env slug request w) as (found & Ff & R).
  destruct found as [form_doc|].
  2:{ rewrite Hrun in R. injection R as -> ->. now destruct Hcommit. }
  destruct R as (p & w1 & P & R).
  pose proof (read_payload_effects _ _ _ P) as [(_ & Sc & _) _].
  destruct p as [e|[d links]].
  { rewrite Hrun in R. injection R as -> ->. now destruct Hcommit. }
  destruct R as (v & V & R).
  destruct v as [e|[]].
  { rewrite Hrun in R. injection R as -> ->. now destruct Hcommit. }
  destruct (checked_links links) as [ls|] eqn:L.
  2:{ rewrite Hrun in R. injection R as -> ->. now destruct Hcommit. }
  destruct R as (w2 & mir & R & _ & Sc2 & _).
  rewrite Hrun in R. injection R as -> ->.
  exists (committed env form_doc d ls w1).
  split; [now rewrite Sc2, Sc|]. split; [reflexivity|].
  intros sheet_ref probe append q. subst q.
  destruct (submit_form_run (with_sink env sheet_ref probe append)
                            slug request w) as (found' & Ff' & R').
  rewrite Ff in Ff'. injection Ff' as <-.
  destruct R' as (p' & w1' & P' & R').
  rewrite read_payload_with_sink, P in P'. injection P' as <- <-.
  destruct R' as (v' & V' & R'). rewrite V in V'. injection V' as <-.
  rewrite L in R'. destruct R' as (w3 & mir' & R' & _ & Sc3 & _).
  rewrite R'. simpl. split; [reflexivity|].
  now rewrite Sc3, Sc2.
Qed.

Lemma mirror_failure_isolated_witness :
  exists doc,
    submission_coll
      (snd (submit_form sink_down "rsvp"
                        (JsonRequest (Some [("name", Scalar (SStr "Ana"))]))
                        (world_of rsvp)))
    = submission_coll (world_of rsvp) ++ [doc] /\
    fst (submit_form sink_down "rsvp"
                     (JsonRequest (Some [("name", Scalar (SStr "Ana"))]))
                     (world_of rsvp))
    = inr (mkResponse "ok" (str_oid (sub_oid doc))) /\
    forall sheet_ref probe append,
      let q := submit_form (with_sink sink_down sheet_ref probe append) "rsvp"
                           (JsonRequest (Some [("name", Scalar (SStr "Ana"))]))
                           (world_of rsvp) in
      fst q
      = fst (submit_form sink_down "rsvp"
                         (JsonRequest (Some [("name", Scalar (SStr "Ana"))]))
                         (world_of rsvp)) /\
      submission_coll (snd q)
      = submission_coll
          (snd (submit_form sink_down "rsvp"
                            (JsonRequest (Some [("name", Scalar (SStr "Ana"))]))
                            (world_of rsvp))).
Proof.
  apply (@mirror_failure_isolated sink_down "rsvp"
           (JsonRequest (Some [("name", Scalar (SStr "Ana"))]))
           (world_of rsvp)).
  - apply surjective_pairing.
  - vm_compute. discriminate.
Defined.

(** ** Claims about the attribute map *)

(** C4.  An entry is folded into the attribute map by cases: an unseen
    key stores the scalar, a key holding a scalar becomes the two-element
    sequence, a key holding a sequence is appended to, and other keys are
    left alone.  So reading a multipart payload gives a map in which each
    key holds the texts that arrived under it, in arrival order, which for
    a key that only plain-text entries carry are the values of those
    entries; in particular ["red"], ["green"], ["blue"] under ["colors"]
    give the sequence of the three. *)
Theorem text_entries_fold :
  (forall k v d0,
      (dict_get k d0 = None ->
       dict_get k (merge_text k v d0) = Some (Scalar (SStr v))) /\
      (forall x, dict_get k d0 = Some (Scalar x) ->
                 dict_get k (merge_text k v d0) = Some (Seq [x; SStr v])) /\
      (forall xs, dict_get k d0 = Some (Seq xs) ->
                  dict_get k (merge_text k v d0)
                  = Some (Seq (xs ++ [SStr v]))) /\
      (forall k', k' <> k ->
                  dict_get k' (merge_text k v d0) = dict_get k' d0)) /\
  (forall env parts w,
      exists d,
        read_payload env (FormRequest parts) w = (inr (d, []), w) /\
        forall k, dict_get k d = encode (values_of env k parts)) /\
  (forall env parts k,
      (forall u, ~ In (k, File u) parts) ->
      map Text (values_of env k parts)
      = map snd (filter (fun kv => String.eqb k (fst kv)) parts)) /\
  (forall env w,
      read_payload env
                   (FormRequest [("colors", Text "red");
                                 ("colors", Text "green");
                                 ("colors", Text "blue")]) w
      = (inr ([("colors", Seq [SStr "red"; SStr "green"; SStr "blue"])], []),
         w)).
Proof.
  split; [|split; [|split]].
  - intros k v d0. repeat split.
    + intros E. now rewrite merge_text_same, E.
    + intros x E. now rewrite merge_text_same, E.
    + intros xs E. now rewrite merge_text_same, E.
    + intros k' N. now apply merge_text_other.
  - intros env parts w. exists (fold_parts env parts []).
    split; [apply read_payload_reads|].
    intros k. rewrite fold_parts_get. apply absorb_none.
  - intros env parts k. induction parts as [|[k0 v] parts IH]; intros H.
    + reflexivity.
    + simpl. destruct (String.eqb_spec k k0) as [<-|N].
      * simpl. rewrite IH by (intros u I; apply (H u); now right).
        destruct v as [t|u]; [reflexivity|].
        exfalso. apply (H u). now left.
      * apply IH. intros u I. apply (H u). now right.
  - reflexivity.
Qed.

Lemma text_entries_fold_witness :
  (exists d,
      read_payload healthy
                   (FormRequest [("colors", Text "red"); ("resume", File cv);
                                 ("colors", Text "green")])
                   (world_of survey)
      = (inr (d, []), world_of survey) /\
      forall k, dict_get k d
                = encode (values_of healthy k
                                    [("colors", Text "red");
                                     ("resume", File cv);
                                     ("colors", Text "green")])) /\
  map Text (values_of healthy "colors"
                      [("colors", Text "red"); ("resume", File cv);
                       ("colors", Text "green")])
  = [Text "red"; Text "green"] /\
  dict_get "colors" (merge_text "colors" "red" []) = Some (Scalar (SStr "red")).
Proof.
  destruct text_entries_fold as (Step & Fold & Plain & _).
  split; [|split].
  - apply (Fold healthy [("colors", Text "red"); ("resume", File cv);
                         ("colors", Text "green")] (world_of survey)).
  - apply (Plain healthy [("colors", Text "red"); ("resume", File cv);
                          ("colors", Text "green")] "colors").
    intros u [E|[E|[E|[]]]]; discriminate.
  - apply (Step "colors" "red" []). reflexivity.
Defined.

(** An accepted submission, with the payload it was read from. *)
Lemma accepted_run env slug request w resp w' :
  submit_form env slug request w = (inr resp, w') ->
  exists form_doc mir,
    find_one_form slug w = (inr (Some form_doc), w) /\
    resp = mkResponse "ok" (str_oid (next_oid w)) /\
    submission_coll w'
    = submission_coll w
      ++ [committed env form_doc (payload_data env request) [] w] /\
    trace w' = trace w ++ DbInsert "submission" (next_oid w) :: mir /\
    Forall is_mirror_event mir.
Proof.
  intros Hrun.
  destruct (submit_form_run env slug request w) as (found & Ff & R).
  destruct found as [form_doc|]; [|rewrite Hrun in R; discriminate].
  destruct R as (p & w1 & P & R).
  rewrite read_payload_reads in P. injection P as <- <-.
  destruct R as (v & V & R).
  destruct v as [e|[]]; [rewrite Hrun in R; discriminate|].
  simpl in R. destruct R as (w2 & mir & R & _ & Sc & _ & Tc & Am & _).
  rewrite Hrun in R. injection R as -> ->.
  exists form_doc, mir. auto.
Qed.

Lemma payload_data_keys env request k :
  In k (dict_keys (payload_data env request)) <-> In k (raw_keys request).
Proof.
  destruct request as [[d|]|parts]; simpl; try reflexivity.
  rewrite fold_parts_keys. simpl. intuition.
Qed.

(** C8.  The attribute map stored for an accepted submission is the one
    read from the payload, with no key filtered out: its keys are exactly
    the keys of the payload, declared by the form or not, each with the
    value the payload gave it; so every stored key is a declared
    identifier or a key of the raw payload. *)
Theorem undeclared_keys_pass_through env slug request w resp w'
        (Hrun : submit_form env slug request w = (inr resp, w')) :
  exists form_doc doc,
    find_one_form slug w = (inr (Some form_doc), w) /\
    submission_coll w' = submission_coll w ++ [doc] /\
    (forall k, In k (dict_keys (data doc)) <-> In k (raw_keys request)) /\
    (forall k, In k (raw_keys request) ->
               ~ In k (map id (fields form_doc)) ->
               In k (dict_keys (data doc))) /\
    (forall k, In k (dict_keys (data doc)) ->
               In k (map id (fields form_doc)) \/ In k (raw_keys request)) /\
    match request with
    | JsonRequest (Some d) => data doc = d
    | JsonRequest None => data doc = []
    | FormRequest parts =>
        forall k, dict_get k (data doc) = encode (values_of env k parts)
    end.
Proof.
  destruct (accepted_run _ _ _ _ Hrun) as (form_doc & mir & Ff & _ & Sc & _).
  exists form_doc, (committed env form_doc (payload_data env request) [] w).
  split; [exact Ff|]. split; [exact Sc|]. simpl.
  split; [intros k; apply payload_data_keys|].
  split; [intros k I _; now apply (payload_data_keys env request k)|].
  split; [intros k I; right; now apply (payload_data_keys env request k)|].
  destruct request as [[d0|]|parts]; simpl; try reflexivity.
  intros k. rewrite fold_parts_get. apply absorb_none.
Qed.

Lemma undeclared_keys_pass_through_witness :
  exists form_doc doc,
    find_one_form "rsvp" (world_of rsvp)
    = (inr (Some form_doc), world_of rsvp) /\
    submission_coll
      (snd (submit_form healthy "rsvp"
                        (JsonRequest (Some [("name", Scalar (SStr "Ana"));
                                            ("diet", Scalar (SStr "vegan"))]))
                        (world_of rsvp)))
    = submission_coll (world_of rsvp) ++ [doc] /\
    (forall k, In k (dict_keys (data doc)) <-> In k ["name"; "diet"]) /\
    (forall k, In k ["name"; "diet"] ->
               ~ In k (map id (fields form_doc)) ->
               In k (dict_keys (data doc))) /\
    (forall k, In k (dict_keys (data doc)) ->
               In k (map id (fields form_doc)) \/ In k ["name"; "diet"]) /\
    data doc = [("name", Scalar (SStr "Ana")); ("diet", Scalar (SStr "vegan"))].
Proof.
  exact (@undeclared_keys_pass_through
           healthy "rsvp"
           (JsonRequest (Some [("name", Scalar (SStr "Ana"));
                               ("diet", Scalar (SStr "vegan"))]))
           (world_of rsvp) (mkResponse "ok" "10") _ eq_refl).
Defined.

(** ** Claims about file entries *)

Lemma checked_links_stored links ls :
  checked_links links = Some ls -> links = stored_links ls.
Proof.
  revert ls. induction links as [|[k [s|]] links IH]; intros ls; simpl.
  - now intros [= <-].
  - destruct (checked_links links) as [rest|]; [|discriminate].
    intros [= <-]. simpl. now rewrite <- (IH rest eq_refl).
  - discriminate.
Qed.

(** C6.  A part with a [filename] parameter is not routed to the file
    links.  In an accepted multipart submission that carries such a part
    under [k], named or not, the stored Submission has no link at all, and
    its attribute map has an entry for [k] that holds, among the texts
    that arrived under [k], what [str] prints for the upload object; the
    run makes no call to Drive. *)
Theorem file_part_goes_to_attribute_map env slug parts w resp w' k u
        (Hrun : submit_form env slug (FormRequest parts) w = (inr resp, w'))
        (Hfile : In (k, File u) parts) :
  exists doc,
    submission_coll w' = submission_coll w ++ [doc] /\
    file_links doc = [] /\
    In k (dict_keys (data doc)) /\
    dict_get k (data doc) = encode (values_of env k parts) /\
    In (str_upload env k u) (values_of env k parts) /\
    exists evs,
      trace w' = trace w ++ evs /\ Forall (fun e => ~ is_drive_event e) evs.
Proof.
  destruct (accepted_run _ _ _ _ Hrun)
    as (form_doc & mir & _ & _ & Sc & Tc & Am).
  exists (committed env form_doc (fold_parts env parts []) [] w).
  split; [exact Sc|]. simpl. split; [reflexivity|]. split.
  { apply fold_parts_keys. right. apply in_map_iff.
    exists (k, File u). auto. }
  split; [rewrite fold_parts_get; apply absorb_none|].
  split; [exact (values_of_in env _ _ _ Hfile)|].
  exists (DbInsert "submission" (next_oid w) :: mir).
  split; [exact Tc|]. constructor; [simpl; auto|].
  now apply not_drive_of_mirror.
Qed.

Lemma file_part_goes_to_attribute_map_witness :
  exists doc,
    submission_coll
      (snd (submit_form healthy "survey" (FormRequest [("resume", File cv)])
                        (world_of survey)))
    = submission_coll (world_of survey) ++ [doc] /\
    file_links doc = [] /\
    In "resume" (dict_keys (data doc)) /\
    dict_get "resume" (data doc)
    = Some (Scalar (SStr (str_upload healthy "resume" cv))) /\
    In (str_upload healthy "resume" cv)
       (values_of healthy "resume" [("resume", File cv)]) /\
    exists evs,
      trace (snd (submit_form healthy "survey"
                              (FormRequest [("resume", File cv)])
                              (world_of survey)))
      = trace (world_of survey) ++ evs /\
      Forall (fun e => ~ is_drive_event e) evs.
Proof.
  apply (@file_part_goes_to_attribute_map
           healthy "survey" [("resume", File cv)] (world_of survey)
           (mkResponse "ok" "10") _ "resume" cv).
  - reflexivity.
  - simpl. left. reflexivity.
Defined.

(** C10.  A part whose [filename] parameter is empty is not dropped.  No
    upload is attempted for it and its key gets no link, but the part goes
    into the attribute map like any other: in an accepted submission the
    stored entry of its key holds the texts that arrived under the key
    before it, what [str] prints for the upload object, and the texts that
    arrived after it. *)
Theorem unnamed_file_part_is_stored env slug pre k u post w resp w'
        (Hname : str_truthy (filename u) = false)
        (Hrun : submit_form env slug (FormRequest (pre ++ (k, File u) :: post))
                            w
                = (inr resp, w')) :
  exists doc,
    submission_coll w' = submission_coll w ++ [doc] /\
    In k (dict_keys (data doc)) /\
    dict_get k (data doc)
    = encode (values_of env k pre
              ++ str_upload env k u :: values_of env k post) /\
    ~ In k (dict_keys (file_links doc)) /\
    exists evs,
      trace w' = trace w ++ evs /\ Forall (fun e => ~ is_drive_event e) evs.
Proof.
  destruct (accepted_run _ _ _ _ Hrun)
    as (form_doc & mir & _ & _ & Sc & Tc & Am).
  exists (committed env form_doc
                    (fold_parts env (pre ++ (k, File u) :: post) []) [] w).
  split; [exact Sc|]. simpl. split.
  { apply fold_parts_keys. right. rewrite map_app. apply in_or_app.
    right. now left. }
  split.
  { rewrite fold_parts_get, values_of_app. simpl.
    rewrite String.eqb_refl. apply absorb_none. }
  split; [intros []|].
  exists (DbInsert "submission" (next_oid w) :: mir).
  split; [exact Tc|]. constructor; [simpl; auto|].
  now apply not_drive_of_mirror.
Qed.

Lemma unnamed_file_part_is_stored_witness :
  exists doc,
    submission_coll
      (snd (submit_form healthy "survey"
                        (FormRequest ([("colors", Text "red")]
                                      ++ ("photo", File blank) :: []))
                        (world_of survey)))
    = submission_coll (world_of survey) ++ [doc] /\
    In "photo" (dict_keys (data doc)) /\
    dict_get "photo" (data doc)
    = Some (Scalar (SStr (str_upload healthy "photo" blank))) /\
    ~ In "photo" (dict_keys (file_links doc)) /\
    exists evs,
      trace (snd (submit_form healthy "survey"
                              (FormRequest ([("colors", Text "red")]
                                            ++ ("photo", File blank) :: []))
                              (world_of survey)))
      = trace (world_of survey) ++ evs /\
      Forall (fun e => ~ is_drive_event e) evs.
Proof.
  apply (@unnamed_file_part_is_stored
           healthy "survey" [("colors", Text "red")] "photo" blank []
           (world_of survey) (mkResponse "ok" "10")).
  - reflexivity.
  - reflexivity.
Defined.

(** ** Claims about the mirrored row *)

Lemma fold_row_cells d fs acc :
  fold_left (fun row f => row ++ [cell d f]) fs acc = acc ++ map (cell d) fs.
Proof.
  revert acc. induction fs as [|f fs IH]; intros acc; simpl.
  - now rewrite app_nil_r.
  - now rewrite IH, <- app_assoc.
Qed.

Lemma build_row_cells t fs d :
  build_row t fs d = Scalar (SStr (isoformat t)) :: map (cell d) fs.
Proof.
  unfold build_row. now rewrite fold_row_cells.
Qed.

Lemma new_events (A : Type) (old more : list A) :
  skipn (length old) (old ++ more) = more.
Proof.
  induction old as [|x old IH]; simpl; auto.
Qed.

Lemma dict_get_last (V : Type) k (e : dict V) k0 (v0 : V) :
  dict_get k (e ++ [(k0, v0)])
  = match dict_get k e with
    | Some v => Some v
    | None => if String.eqb k k0 then Some v0 else None
    end.
Proof.
  induction e as [|[k1 v1] e IH]; simpl; auto.
  destruct (String.eqb k k1); auto.
Qed.

(** In [{**d, **e}] the last binding of [e] wins, and [d] fills the rest. *)
Lemma dict_get_merge (V : Type) k (d e : dict V) :
  dict_get k (dict_merge d e)
  = match dict_get k (rev e) with
    | Some v => Some v
    | None => dict_get k d
    end.
Proof.
  unfold dict_merge. revert d.
  induction e as [|[k0 v0] e IH]; intros d; simpl; auto.
  rewrite IH, dict_get_last.
  destruct (dict_get k (rev e)); auto.
  destruct (String.eqb_spec k k0) as [->|N].
  - apply dict_get_set_same.
  - now apply dict_get_set_other.
Qed.

Lemma dict_get_map_values (V W : Type) (g : V -> W) k (l : dict V) :
  dict_get k (map (fun kv => (fst kv, g (snd kv))) l)
  = option_map g (dict_get k l).
Proof.
  induction l as [|[k0 v0] l IH]; simpl; auto.
  destruct (String.eqb k k0); auto.
Qed.

Lemma combined_get k d ls :
  dict_get k (combined d (stored_links ls))
  = match dict_get k (rev ls) with
    | Some link => Some (Scalar (SStr link))
    | None => dict_get k d
    end.
Proof.
  unfold combined, stored_links. rewrite map_map. simpl.
  rewrite dict_get_merge, <- map_rev.
  rewrite (dict_get_map_values (fun s => Scalar (SStr s))).
  destruct (dict_get k (rev ls)); reflexivity.
Qed.

(** C5 (amended).  The row a run of [submit_form] sends to the sheet of
    the form starts with the ISO-8601 rendering of the clock as read when
    the row is built, which is the reading after the one that stamped the
    stored Submission, and goes on with one cell per field, in the order
    the form declares them.  The cell of a field is looked up, under the
    field's identifier, in the stored file links and then in the stored
    attribute map: a sequence is rendered joined by [", "], a scalar is
    passed as it is, and a field with no entry gives [None]. *)
Theorem sheet_row_layout env slug request w r w' rng row
        (Hrun : submit_form env slug request w = (r, w'))
        (Hrow : In (SheetAppend rng row)
                   (skipn (length (trace w)) (trace w'))) :
  exists form_doc doc,
    find_one_form slug w = (inr (Some form_doc), w) /\
    submission_coll w' = submission_coll w ++ [doc] /\
    created_at doc = utcnow env (clock_reads w) /\
    rng = range_of (sheet_name form_doc) /\
    let comb := combined (data doc) (stored_links (file_links doc)) in
    row = Scalar (SStr (isoformat (utcnow env (S (clock_reads w)))))
          :: map (cell comb) (fields form_doc) /\
    length row = S (length (fields form_doc)) /\
    (forall k, dict_get k comb
               = match dict_get k (rev (file_links doc)) with
                 | Some link => Some (Scalar (SStr link))
                 | None => dict_get k (data doc)
                 end) /\
    (forall f, cell comb f
               = match dict_get (id f) comb with
                 | Some (Seq xs) =>
                     Scalar (SStr (String.concat ", " (map py_str xs)))
                 | Some (Scalar x) => Scalar x
                 | None => Scalar SNone
                 end).
Proof.
  destruct (submit_form_run env slug request w) as (found & Ff & R).
  destruct found as [form_doc|].
  2:{ rewrite Hrun in R. injection R as -> ->.
      rewrite <- (app_nil_r (trace w)) in Hrow at 2.
      rewrite new_events in Hrow. destruct Hrow. }
  destruct R as (p & w1 & P & R).
  pose proof (read_payload_effects _ _ _ P)
    as [(_ & Sc & _ & ups & Tc & Au) Cl].
  assert (Nd : ~ In (SheetAppend rng row) ups).
  { intros I. rewrite Forall_forall in Au. exact (Au _ I). }
  assert (Stop : trace w' = trace w1 -> False).
  { intros T. rewrite T, Tc, new_events in Hrow. auto. }
  destruct p as [e|[d links]].
  { rewrite Hrun in R. injection R as -> ->. now destruct Stop. }
  destruct R as (v & V & R).
  destruct v as [e|[]].
  { rewrite Hrun in R. injection R as -> ->. now destruct Stop. }
  destruct (checked_links links) as [ls|] eqn:L.
  2:{ rewrite Hrun in R. injection R as -> ->. now destruct Stop. }
  destruct R as (w2 & mir & R & _ & Sc2 & _ & Tc2 & _ & Rows).
  rewrite Hrun in R. injection R as -> ->.
  rewrite Tc2, Tc, <- app_assoc, new_events in Hrow.
  apply in_app_or in Hrow. destruct Hrow as [I|[I|I]];
    [now destruct Nd | discriminate |].
  destruct (Rows _ _ I) as [-> ->].
  exists form_doc, (committed env form_doc d ls w1).
  split; [exact Ff|]. split; [now rewrite Sc2, Sc|]. simpl.
  split; [now rewrite Cl|]. split; [reflexivity|].
  rewrite (checked_links_stored _ L), build_row_cells, Cl.
  split; [reflexivity|]. split; [simpl; now rewrite length_map|].
  split; [intros k; apply combined_get|].
  intros f. unfold cell.
  destruct (dict_get (id f) (combined d (stored_links ls))) as [[x|xs]|];
    reflexivity.
Qed.

Lemma sheet_row_layout_witness :
  exists form_doc doc,
    find_one_form "rsvp" (world_of rsvp)
    = (inr (Some form_doc), world_of rsvp) /\
    [mkSubmission 10 "1" [("name", Scalar (SStr "Ana"))] [] None None t_commit]
    = submission_coll (world_of rsvp) ++ [doc] /\
    created_at doc = utcnow healthy (clock_reads (world_of rsvp)) /\
    "tab!A1" = range_of (sheet_name form_doc) /\
    let comb := combined (data doc) (stored_links (file_links doc)) in
    [Scalar (SStr "2024-05-17T09:30:00.000131"); Scalar (SStr "Ana");
     Scalar SNone]
    = Scalar (SStr (isoformat
                      (utcnow healthy (S (clock_reads (world_of rsvp))))))
      :: map (cell comb) (fields form_doc) /\
    length [Scalar (SStr "2024-05-17T09:30:00.000131"); Scalar (SStr "Ana");
            Scalar SNone]
    = S (length (fields form_doc)) /\
    (forall k, dict_get k comb
               = match dict_get k (rev (file_links doc)) with
                 | Some link => Some (Scalar (SStr link))
                 | None => dict_get k (data doc)
                 end) /\
    (forall f, cell comb f
               = match dict_get (id f) comb with
                 | Some (Seq xs) =>
                     Scalar (SStr (String.concat ", " (map py_str xs)))
                 | Some (Scalar x) => Scalar x
                 | None => Scalar SNone
                 end).
Proof.
  apply (@sheet_row_layout
           healthy "rsvp" (JsonRequest (Some [("name", Scalar (SStr "Ana"))]))
           (world_of rsvp) (inr (mkResponse "ok" "10"))
           (mkWorld [rsvp]
                    [mkSubmission 10 "1" [("name", Scalar (SStr "Ana"))] []
                                  None None t_commit]
                    11 2
                    [DbInsert "submission" 10;
                     SheetAppend "tab!A1"
                       [Scalar (SStr "2024-05-17T09:30:00.000131");
                        Scalar (SStr "Ana"); Scalar SNone]])).
  - reflexivity.
  - simpl. right. left. reflexivity.
Defined.

(** C5 as stated fails: the first cell of the row is not the stamp of the
    stored Submission but a later reading of the clock. *)
Lemma row_stamp_is_a_later_reading :
  let r := submit_form healthy "rsvp"
                       (JsonRequest (Some [("name", Scalar (SStr "Ana"))]))
                       (world_of rsvp) in
  map (@created_at) (submission_coll (snd r)) = [t_commit] /\
  isoformat t_commit = "2024-05-17T09:30:00.000125" /\
  trace (snd r)
  = [DbInsert "submission" 10;
     SheetAppend "tab!A1"
       [Scalar (SStr "2024-05-17T09:30:00.000131"); Scalar (SStr "Ana");
        Scalar SNone]] /\
  Scalar (SStr "2024-05-17T09:30:00.000131")
  <> Scalar (SStr (isoformat t_commit)).
Proof.
  vm_compute. repeat split. discriminate.
Qed.

(** * Further properties of the code *)

(** ** Text *)

Lemma sapp_nil_r (s : string) : (s ++ "")%string = s.
Proof.
  induction s as [|c s IH]; simpl; [reflexivity | now rewrite IH].
Qed.

Lemma sapp_assoc (a b c : string) :
  ((a ++ b) ++ c)%string = (a ++ b ++ c)%string.
Proof.
  induction a as [|x a IH]; simpl; [reflexivity | now rewrite IH].
Qed.

Lemma length_sapp (a b : string) :
  String.length (a ++ b) = String.length a + String.length b.
Proof.
  induction a as [|x a IH]; simpl; [reflexivity | now rewrite IH].
Qed.

Lemma str_truthy_sapp (a b : string) :
  str_truthy (a ++ b) = str_truthy a || str_truthy b.
Proof.
  destruct a; reflexivity.
Qed.

Lemma no_space_sapp (a b : string) :
  no_space (a ++ b) = no_space a && no_space b.
Proof.
  induction a as [|x a IH]; simpl; [reflexivity|].
  now rewrite IH, andb_assoc.
Qed.

Lemma split_skips_spaces a s :
  all_space a = true ->
  split_from EmptyString (a ++ s) = split_from EmptyString s.
Proof.
  induction a as [|c a IH]; simpl; intros H; [reflexivity|].
  apply andb_prop in H. destruct H as [Hc Ha]. rewrite Hc. auto.
Qed.

Lemma split_reads_word u : forall word s,
  no_space u = true ->
  split_from word (u ++ s) = split_from (word ++ u) s.
Proof.
  induction u as [|c u IH]; simpl; intros word s H.
  - now rewrite sapp_nil_r.
  - apply andb_prop in H. destruct H as [Hc Hu].
    apply negb_true_iff in Hc. rewrite Hc, IH; auto.
    now rewrite sapp_assoc.
Qed.

Lemma split_closes_word word b s :
  str_truthy word = true -> all_space b = true -> str_truthy b = true ->
  split_from word (b ++ s) = word :: split_from EmptyString s.
Proof.
  intros W B N. destruct b as [|c b]; [discriminate|]. simpl in *.
  apply andb_prop in B. destruct B as [Hc Hb]. rewrite Hc.
  destruct word; [discriminate|]. f_equal. now apply split_skips_spaces.
Qed.

Lemma split_last_word word c :
  str_truthy word = true -> all_space c = true ->
  split_from word c = [word].
Proof.
  intros W C. destruct c as [|x c]; simpl.
  - now destruct word.
  - simpl in C. apply andb_prop in C. destruct C as [Hx Hc]. rewrite Hx.
    destruct word; [discriminate|]. f_equal.
    rewrite <- (sapp_nil_r c). rewrite split_skips_spaces; auto.
Qed.

(** The words [split] returns are not empty and have no space. *)
Lemma split_words s : forall word,
  no_space word = true ->
  Forall (fun u => str_truthy u = true /\ no_space u = true)
         (split_from word s).
Proof.
  induction s as [|c s IH]; simpl; intros word W.
  - destruct word; constructor; auto.
  - destruct (is_space c) eqn:Sc.
    + destruct word; [apply IH; reflexivity|].
      constructor; [auto | apply IH; reflexivity].
    + apply IH. rewrite no_space_sapp, W. simpl. now rewrite Sc.
Qed.

Lemma is_space_lower c : is_space (lower_char c) = is_space c.
Proof.
  destruct c as [[] [] [] [] [] [] [] []]; reflexivity.
Qed.

Lemma no_space_lower s : no_space (py_lower s) = no_space s.
Proof.
  induction s as [|c s IH]; simpl; [reflexivity|].
  now rewrite is_space_lower, IH.
Qed.

Lemma str_truthy_lower s : str_truthy (py_lower s) = str_truthy s.
Proof.
  destruct s; reflexivity.
Qed.

(** ** [verify_admin] *)

(** X1.  A header made of a scheme that reads [bearer] in any letter case
    and of one token, separated by spaces of any kind and number and
    possibly surrounded by more, is answered as the token verifier answers
    the token: its [uid], or a 401 that carries the verifier's message. *)
Theorem verify_admin_bearer v a scheme b token c
        (Ha : all_space a = true)
        (Hb : all_space b = true) (Hb' : str_truthy b = true)
        (Hc : all_space c = true)
        (Hs : py_lower scheme = "bearer")
        (Ht : no_space token = true) (Ht' : str_truthy token = true) :
  verify_admin v (Some (a ++ scheme ++ b ++ token ++ c)%string)
  = match v token with
    | inr uid => inr uid
    | inl e => inl (HTTPException 401 ("Invalid token: " ++ e))
    end.
Proof.
  assert (Ns : no_space scheme = true).
  { rewrite <- no_space_lower, Hs. reflexivity. }
  assert (Ts : str_truthy scheme = true).
  { rewrite <- str_truthy_lower, Hs. reflexivity. }
  assert (P : py_split (a ++ scheme ++ b ++ token ++ c) = [scheme; token]).
  { unfold py_split. rewrite split_skips_spaces by exact Ha.
    rewrite split_reads_word by exact Ns. simpl.
    rewrite split_closes_word by auto.
    rewrite split_reads_word by exact Ht. simpl.
    now rewrite split_last_word. }
  unfold verify_admin. simpl opt_truthy.
  rewrite !str_truthy_sapp, Ts, orb_true_r. rewrite P, Hs. reflexivity.
Qed.

Lemma verify_admin_bearer_witness :
  verify_admin (fun t => if String.eqb t "tok-1" then inr (Some "u-7")
                         else inl "expired")
               (Some (" " ++ "BeArEr" ++ "  " ++ "tok-1" ++ " ")%string)
  = inr (Some "u-7").
Proof.
  apply (@verify_admin_bearer
           (fun t => if String.eqb t "tok-1" then inr (Some "u-7")
                     else inl "expired")
           " " "BeArEr" "  " "tok-1" " "); reflexivity.
Defined.

(** X2.  [verify_admin] fails with status 401 and nothing else, and what
    it accepts is the second of exactly two words of the header, the first
    reading [bearer]: a token that is not empty, has no space in it and
    that the verifier accepted. *)
Theorem verify_admin_outcomes v authorization :
  match verify_admin v authorization with
  | inl e => exists detail, e = HTTPException 401 detail
  | inr uid =>
      exists header scheme token,
      authorization = Some header /\
      py_split header = [scheme; token] /\
      py_lower scheme = "bearer" /\
      str_truthy token = true /\ no_space token = true /\
      v token = inr uid
  end.
Proof.
  unfold verify_admin.
  destruct authorization as [header|]; simpl; [|eauto].
  destruct (str_truthy header); [|eauto].
  pose proof (split_words header EmptyString eq_refl) as W.
  fold (py_split header) in W.
  destruct (py_split header) as [|scheme [|token [|x rest]]] eqn:P; eauto.
  destruct (String.eqb_spec (py_lower scheme) "bearer") as [E|N]; eauto.
  destruct (v token) as [e|uid] eqn:V; eauto.
  inversion W as [|? ? _ W']. inversion W' as [|? ? [T1 T2] _]. subst.
  exists header, scheme, token. repeat split; auto.
Qed.

(** ** Creating a form *)

Section AdminRuns.
Variable aenv : AdminEnv.

(** A tab that could be made was made by the two calls, after one reading
    of the clock. *)
Lemma tab_made form_title fs bw calls tab w1 :
  create_sheet_tab_for_form aenv form_title fs None (mkAdminWorld bw calls)
  = (inr tab, w1) ->
  tab = tab_title aenv form_title bw /\
  w1 = mkAdminWorld (ticked bw) (calls ++ tab_calls tab fs).
Proof.
  cbv beta iota zeta delta [create_sheet_tab_for_form abind lift call aret
                            araise now world sheet_calls opt_truthy].
  destruct (get_google_services_pure (services aenv) bw) as [g G].
  rewrite G. destruct g as [e|[]]; [discriminate|].
  destruct (ensure_master_sheet_pure (services aenv) bw) as [m Hm].
  rewrite Hm. destruct m as [e|[]]; [discriminate|].
  match goal with
  | |- context [batchUpdate aenv ?a ?b ?c] =>
      destruct (batchUpdate aenv a b c); [discriminate|]
  end.
  match goal with
  | |- context [values_update aenv ?a ?b] =>
      destruct (values_update aenv a b); [discriminate|]
  end.
  intros [= <- <-]. split; [reflexivity|].
  unfold ticked, tab_calls, tab_title. now rewrite <- app_assoc.
Qed.

(** Whatever happens, making a tab leaves the database alone. *)
Lemma tab_keeps_database form_title fs w r w1 :
  create_sheet_tab_for_form aenv form_title fs None w = (r, w1) ->
  form_coll (world w1) = form_coll (world w) /\
  submission_coll (world w1) = submission_coll (world w) /\
  next_oid (world w1) = next_oid (world w) /\
  trace (world w1) = trace (world w).
Proof.
  destruct w as [bw calls].
  cbv beta iota zeta delta [create_sheet_tab_for_form abind lift call aret
                            araise now world sheet_calls opt_truthy].
  destruct (get_google_services_pure (services aenv) bw) as [g G].
  rewrite G. destruct g as [e|[]]; [now intros [= <- <-]|].
  destruct (ensure_master_sheet_pure (services aenv) bw) as [m Hm].
  rewrite Hm. destruct m as [e|[]]; [now intros [= <- <-]|].
  match goal with
  | |- context [batchUpdate aenv ?a ?b ?c] =>
      destruct (batchUpdate aenv a b c); [now intros [= <- <-]|]
  end.
  match goal with
  | |- context [values_update aenv ?a ?b] =>
      destruct (values_update aenv a b); now intros [= <- <-]
  end.
Qed.

(** One run of [create_form], from the tab on. *)
Lemma create_form_run payload uid bw calls :
  match create_sheet_tab_for_form aenv (req_title payload)
                                  (req_fields payload) None
                                  (mkAdminWorld bw calls) with
  | (inl e, w1) =>
      create_form aenv payload uid (mkAdminWorld bw calls) = (inl e, w1)
  | (inr tab, w1) =>
      match FormFields (req_fields payload) with
      | None =>
          create_form aenv payload uid (mkAdminWorld bw calls)
          = (inl (Exception "ValidationError"),
             mkAdminWorld (ticked (ticked bw))
                          (calls ++ tab_calls tab (req_fields payload)))
      | Some fs =>
          create_form aenv payload uid (mkAdminWorld bw calls)
          = (inr (mkCreateFormResponse
                    (str_oid (next_oid bw))
                    (share_link (PUBLIC_BASE_URL aenv)
                                (new_slug aenv (req_title payload) bw))
                    tab),
             mkAdminWorld
               (mkWorld
                  (form_coll bw
                   ++ [mkForm (next_oid bw) (req_title payload)
                              (req_description payload) fs None (Some tab)
                              (Some (new_slug aenv (req_title payload) bw))
                              uid])
                  (submission_coll bw) (S (next_oid bw))
                  (S (S (S (clock_reads bw))))
                  (trace bw ++ [DbInsert "form" (next_oid bw)]))
               (calls ++ tab_calls tab (req_fields payload)))
      end
  end.
Proof.
  destruct (create_sheet_tab_for_form aenv (req_title payload)
                                      (req_fields payload) None
                                      (mkAdminWorld bw calls))
    as [[e|tab] w1] eqn:T.
  - unfold create_form, abind. now rewrite T.
  - destruct (tab_made _ _ _ _ T) as [-> ->].
    cbv beta iota zeta delta [create_form abind]. rewrite T.
    unfold new_slug.
    destruct (FormFields (req_fields payload)) as [fs|]; reflexivity.
Qed.
End AdminRuns.

Lemma FormFields_none raw :
  FormFields raw = None <->
  exists f, In f raw /\
            (raw_id f = None \/ raw_type f = None \/ raw_label f = None).
Proof.
  induction raw as [|f raw IH]; simpl.
  - split; [discriminate | intros (f & [] & _)].
  - unfold FormFieldSchema.
    destruct (raw_id f) eqn:I; [|split; eauto 6].
    destruct (raw_type f) eqn:T; [|split; eauto 6].
    destruct (raw_label f) eqn:L; [|split; eauto 7].
    destruct (FormFields raw) as [fs|].
    + split; [discriminate|].
      intros (g & [<-|G] & H).
      * rewrite I, T, L in H. destruct H as [H|[H|H]]; discriminate.
      * destruct IH as [_ IH]. discriminate IH. eauto.
    + split; [|reflexivity]. intros _.
      destruct IH as [IH _]. destruct (IH eq_refl) as (g & G & H). eauto.
Qed.

Lemma FormFields_some raw fs :
  FormFields raw = Some fs ->
  List.length fs = List.length raw /\
  map header_of raw = map (fun f => Some (label f)) fs /\
  map (fun r => raw_id r) raw = map (fun f => Some (id f)) fs.
Proof.
  revert fs. induction raw as [|r raw IH]; simpl; intros fs H.
  - injection H as <-. auto.
  - unfold FormFieldSchema, header_of in *.
    destruct (raw_id r) eqn:I; [|discriminate].
    destruct (raw_type r) eqn:T; [|discriminate].
    destruct (raw_label r) eqn:L; [|discriminate].
    destruct (FormFields raw) as [fs'|]; [|discriminate].
    injection H as <-. destruct (IH fs' eq_refl) as (A & B & C).
    simpl. rewrite A, B, C. auto.
Qed.

Lemma find_app_last (A : Type) (p : A -> bool) l x :
  find p (l ++ [x])
  = match find p l with
    | Some y => Some y
    | None => if p x then Some x else None
    end.
Proof.
  induction l as [|y l IH]; simpl; [reflexivity|].
  destruct (p y); auto.
Qed.

Lemma find_none_all (A : Type) (p : A -> bool) l :
  (forall y, In y l -> p y = false) -> find p l = None.
Proof.
  induction l as [|y l IH]; simpl; intros H; [reflexivity|].
  rewrite (H y (or_introl eq_refl)). auto.
Qed.

(** X3.  [create_form] makes the tab before it validates the fields: when
    the tab can be made and some field lacks its [id], [type] or [label],
    the run raises the validation error with the tab and its header row
    already in the spreadsheet and no form stored. *)
Theorem tab_made_before_validation aenv payload uid w tab w1 f
        (Htab : create_sheet_tab_for_form aenv (req_title payload)
                                          (req_fields payload) None w
                = (inr tab, w1))
        (Hin : In f (req_fields payload))
        (Hbad : raw_id f = None \/ raw_type f = None \/ raw_label f = None) :
  exists w2,
    create_form aenv payload uid w = (inl (Exception "ValidationError"), w2) /\
    form_coll (world w2) = form_coll (world w) /\
    trace (world w2) = trace (world w) /\
    sheet_calls w2
    = sheet_calls w
      ++ [AddSheet tab 1000 (List.length (req_fields payload) + 3);
          UpdateValues (tab ++ "!A1") (headers (req_fields payload))].
Proof.
  destruct w as [bw calls].
  pose proof (create_form_run aenv payload uid bw calls) as R.
  rewrite Htab in R.
  assert (N : FormFields (req_fields payload) = None).
  { apply FormFields_none. eauto. }
  rewrite N in R. eexists. split; [exact R|]. simpl.
  repeat split. unfold tab_calls, headers. simpl List.length.
  rewrite length_map. do 3 f_equal. lia.
Qed.

Lemma tab_made_before_validation_witness :
  exists w2,
    create_form office unlabelled (Some "u-7") blank_office
    = (inl (Exception "ValidationError"), w2) /\
    form_coll (world w2) = [] /\
    trace (world w2) = [] /\
    sheet_calls w2
    = [] ++ [AddSheet "RSVP-1715938200" 1000 (1 + 3);
             UpdateValues ("RSVP-1715938200" ++ "!A1")
                          (headers [mkRaw (Some "name") (Some "text") None
                                          None (Some true) None None])].
Proof.
  apply (@tab_made_before_validation
           office unlabelled (Some "u-7") blank_office
           "RSVP-1715938200"
           (mkAdminWorld (ticked (mkWorld [] [] 1 0 []))
                         (tab_calls "RSVP-1715938200"
                            [mkRaw (Some "name") (Some "text") None None
                                   (Some true) None None]))
           (mkRaw (Some "name") (Some "text") None None (Some true)
                  None None)).
  - vm_compute. reflexivity.
  - left. reflexivity.
  - right. right. reflexivity.
Defined.

(** What [create_form] stores when it answers. *)
Lemma created_form aenv payload uid w resp w' :
  create_form aenv payload uid w = (inr resp, w') ->
  exists fs,
    FormFields (req_fields payload) = Some fs /\
    let f := mkForm (next_oid (world w)) (req_title payload)
                    (req_description payload) fs None
                    (Some (tab_title aenv (req_title payload) (world w)))
                    (Some (new_slug aenv (req_title payload) (world w))) uid in
    form_coll (world w') = form_coll (world w) ++ [f] /\
    submission_coll (world w') = submission_coll (world w) /\
    resp = mkCreateFormResponse
             (str_oid (next_oid (world w)))
             (share_link (PUBLIC_BASE_URL aenv)
                         (new_slug aenv (req_title payload) (world w)))
             (tab_title aenv (req_title payload) (world w)) /\
    sheet_calls w'
    = sheet_calls w
      ++ tab_calls (tab_title aenv (req_title payload) (world w))
                   (req_fields payload).
Proof.
  destruct w as [bw calls]. intros H.
  pose proof (create_form_run aenv payload uid bw calls) as R.
  destruct (create_sheet_tab_for_form aenv (req_title payload)
                                      (req_fields payload) None
                                      (mkAdminWorld bw calls))
    as [[e|tab] w1] eqn:T; [rewrite H in R; discriminate|].
  destruct (tab_made _ _ _ _ _ T) as [-> _].
  destruct (FormFields (req_fields payload)) as [fs|];
    [|rewrite H in R; discriminate].
  rewrite H in R. injection R as -> ->.
  exists fs. simpl. repeat split.
Qed.

(** X4.  A form that [create_form] answers for is stored with the
    validated fields, the title, the caller's [uid], the tab it mirrors
    into and its slug; the answer carries its identifier, the tab and the
    link [form_qr] encodes for the slug; and when no older form has that
    slug, [get_form_by_slug] and the lookup of [submit_form] return the
    new form. *)
Theorem created_form_is_served aenv payload uid w resp w'
        (Hrun : create_form aenv payload uid w = (inr resp, w'))
        (Hfresh : forall g, In g (form_coll (world w)) ->
                            share_slug g
                            <> Some (new_slug aenv (req_title payload)
                                              (world w))) :
  exists f,
    form_coll (world w') = form_coll (world w) ++ [f] /\
    FormFields (req_fields payload) = Some (fields f) /\
    title f = req_title payload /\
    owner_uid f = uid /\
    sheet_name f = Some (resp_sheet_name resp) /\
    resp_form_id resp = str_oid (form_oid f) /\
    share_slug f = Some (new_slug aenv (req_title payload) (world w)) /\
    share_url resp
    = form_qr aenv (new_slug aenv (req_title payload) (world w)) /\
    get_form_by_slug (new_slug aenv (req_title payload) (world w)) (world w')
    = (inr f, world w') /\
    find_one_form (new_slug aenv (req_title payload) (world w)) (world w')
    = (inr (Some f), world w').
Proof.
  destruct (created_form _ _ _ _ Hrun) as (fs & V & Fc & _ & -> & _).
  eexists. split; [exact Fc|]. simpl.
  repeat (split; [reflexivity || exact V|]).
  assert (F : find_one_form (new_slug aenv (req_title payload) (world w))
                            (world w')
              = (inr (Some (mkForm (next_oid (world w)) (req_title payload)
                                   (req_description payload) fs None
                                   (Some (tab_title aenv (req_title payload)
                                                    (world w)))
                                   (Some (new_slug aenv (req_title payload)
                                                   (world w))) uid)),
                 world w')).
  { unfold find_one_form. rewrite Fc, find_app_last.
    rewrite find_none_all.
    - simpl. now rewrite String.eqb_refl.
    - intros g G. specialize (Hfresh g G).
      destruct (share_slug g) as [s|]; [|reflexivity].
      apply String.eqb_neq. congruence. }
  split; [|exact F].
  unfold get_form_by_slug, bind. now rewrite F.
Qed.

Lemma created_form_is_served_witness :
  exists f,
    form_coll
      (world (snd (create_form office lunch (Some "u-7") blank_office)))
    = [] ++ [f] /\
    FormFields [mkRaw (Some "name") (Some "text") (Some "Name") None
                      (Some true) None None]
    = Some (fields f) /\
    title f = "Team Lunch" /\
    owner_uid f = Some "u-7" /\
    sheet_name f = Some "Team Lunch-1715938200" /\
    "1" = str_oid (form_oid f) /\
    share_slug f = Some "team-lunch-1715938200" /\
    "https://forms.example/f/team-lunch-1715938200"
    = form_qr office "team-lunch-1715938200" /\
    get_form_by_slug
      "team-lunch-1715938200"
      (world (snd (create_form office lunch (Some "u-7") blank_office)))
    = (inr f,
       world (snd (create_form office lunch (Some "u-7") blank_office))) /\
    find_one_form
      "team-lunch-1715938200"
      (world (snd (create_form office lunch (Some "u-7") blank_office)))
    = (inr (Some f),
       world (snd (create_form office lunch (Some "u-7") blank_office))).
Proof.
  apply (@created_form_is_served
           office lunch (Some "u-7") blank_office
           (mkCreateFormResponse
              "1" "https://forms.example/f/team-lunch-1715938200"
              "Team Lunch-1715938200")).
  - vm_compute. reflexivity.
  - intros g [].
Defined.

(** X5.  The slug is not unique: when an older form already has the slug
    a new form gets (the same title, up to letter case and to spaces for
    hyphens, in the same second), the new form is stored all the same, and
    [get_form_by_slug] and the lookup of [submit_form] keep returning the
    older form. *)
Theorem slug_collision_shadows_new_form aenv payload uid w resp w' g
        (Hrun : create_form aenv payload uid w = (inr resp, w'))
        (Hold : find_one_form (new_slug aenv (req_title payload) (world w))
                              (world w)
                = (inr (Some g), world w)) :
  exists f,
    form_coll (world w') = form_coll (world w) ++ [f] /\
    share_slug f = Some (new_slug aenv (req_title payload) (world w)) /\
    form_oid f = next_oid (world w) /\
    In g (form_coll (world w)) /\
    share_slug g = share_slug f /\
    get_form_by_slug (new_slug aenv (req_title payload) (world w)) (world w')
    = (inr g, world w') /\
    find_one_form (new_slug aenv (req_title payload) (world w)) (world w')
    = (inr (Some g), world w').
Proof.
  destruct (created_form _ _ _ _ Hrun) as (fs & V & Fc & _ & -> & _).
  eexists. split; [exact Fc|]. simpl.
  unfold find_one_form in Hold. injection Hold as Hold.
  split; [reflexivity|]. split; [reflexivity|].
  pose proof (find_some _ _ Hold) as [Gin Gs].
  split; [exact Gin|]. split.
  { destruct (share_slug g) as [s|]; [|discriminate].
    apply String.eqb_eq in Gs. now subst s. }
  assert (F : find_one_form (new_slug aenv (req_title payload) (world w))
                            (world w')
              = (inr (Some g), world w')).
  { unfold find_one_form. now rewrite Fc, find_app_last, Hold. }
  split; [|exact F].
  unfold get_form_by_slug, bind. now rewrite F.
Qed.

Lemma slug_collision_shadows_new_form_witness :
  exists f,
    form_coll
      (world
         (snd (create_form
                 office lunch (Some "u-8")
                 (mkAdminWorld
                    (mkWorld [form_of "team-lunch-1715938200" []] [] 2 0 [])
                    []))))
    = [form_of "team-lunch-1715938200" []] ++ [f] /\
    share_slug f = Some "team-lunch-1715938200" /\
    form_oid f = 2 /\
    In (form_of "team-lunch-1715938200" [])
       [form_of "team-lunch-1715938200" []] /\
    share_slug (form_of "team-lunch-1715938200" []) = share_slug f /\
    get_form_by_slug
      "team-lunch-1715938200"
      (world
         (snd (create_form
                 office lunch (Some "u-8")
                 (mkAdminWorld
                    (mkWorld [form_of "team-lunch-1715938200" []] [] 2 0 [])
                    []))))
    = (inr (form_of "team-lunch-1715938200" []),
       world
         (snd (create_form
                 office lunch (Some "u-8")
                 (mkAdminWorld
                    (mkWorld [form_of "team-lunch-1715938200" []] [] 2 0 [])
                    [])))) /\
    find_one_form
      "team-lunch-1715938200"
      (world
         (snd (create_form
                 office lunch (Some "u-8")
                 (mkAdminWorld
                    (mkWorld [form_of "team-lunch-1715938200" []] [] 2 0 [])
                    []))))
    = (inr (Some (form_of "team-lunch-1715938200" [])),
       world
         (snd (create_form
                 office lunch (Some "u-8")
                 (mkAdminWorld
                    (mkWorld [form_of "team-lunch-1715938200" []] [] 2 0 [])
                    [])))).
Proof.
  apply (@slug_collision_shadows_new_form
           office lunch (Some "u-8")
           (mkAdminWorld
              (mkWorld [form_of "team-lunch-1715938200" []] [] 2 0 []) [])
           (mkCreateFormResponse
              "2" "https://forms.example/f/team-lunch-1715938200"
              "Team Lunch-1715938200")).
  - vm_compute. reflexivity.
  - vm_compute. reflexivity.
Defined.

(** X6.  The header row written when a form is created and every row
    mirrored for it later line up: the tab is made with three columns more
    than the form has fields, its header row is ["Timestamp"] followed by
    the labels of the stored fields in order, and a mirrored row has
    exactly as many cells as the header row. *)
Theorem header_row_matches_mirrored_rows aenv payload uid w resp w'
        (Hrun : create_form aenv payload uid w = (inr resp, w')) :
  exists f,
    form_coll (world w') = form_coll (world w) ++ [f] /\
    sheet_calls w'
    = sheet_calls w
      ++ [AddSheet (resp_sheet_name resp) 1000 (List.length (fields f) + 3);
          UpdateValues (resp_sheet_name resp ++ "!A1")
                       (Some "Timestamp"
                        :: map (fun x => Some (label x)) (fields f))] /\
    sheet_name f = Some (resp_sheet_name resp) /\
    forall t d,
      List.length (build_row t (fields f) d)
      = List.length (Some "Timestamp"
                     :: map (fun x => Some (label x)) (fields f)).
Proof.
  destruct (created_form _ _ _ _ Hrun) as (fs & V & Fc & _ & -> & Calls).
  destruct (FormFields_some _ V) as (Len & Hd & _).
  eexists. split; [exact Fc|]. simpl. split.
  { rewrite Calls. unfold tab_calls, headers. simpl List.length.
    rewrite length_map, Hd, Len. do 3 f_equal. lia. }
  split; [reflexivity|].
  intros t d. rewrite build_row_cells. simpl. now rewrite !length_map.
Qed.

Lemma header_row_matches_mirrored_rows_witness :
  exists f,
    form_coll
      (world (snd (create_form office lunch (Some "u-7") blank_office)))
    = form_coll (world blank_office) ++ [f] /\
    sheet_calls (snd (create_form office lunch (Some "u-7") blank_office))
    = sheet_calls blank_office
      ++ [AddSheet "Team Lunch-1715938200" 1000 (List.length (fields f) + 3);
          UpdateValues ("Team Lunch-1715938200" ++ "!A1")
                       (Some "Timestamp"
                        :: map (fun x => Some (label x)) (fields f))] /\
    sheet_name f = Some "Team Lunch-1715938200" /\
    forall t d,
      List.length (build_row t (fields f) d)
      = List.length (Some "Timestamp"
                     :: map (fun x => Some (label x)) (fields f)).
Proof.
  apply (@header_row_matches_mirrored_rows
           office lunch (Some "u-7") blank_office
           (mkCreateFormResponse
              "1" "https://forms.example/f/team-lunch-1715938200"
              "Team Lunch-1715938200")).
  vm_compute. reflexivity.
Defined.

(** ** Slugs and links *)

Lemma has_char_sapp c a b :
  has_char c (a ++ b) = has_char c a || has_char c b.
Proof.
  induction a as [|x a IH]; simpl; [reflexivity|].
  now rewrite IH, orb_assoc.
Qed.

Lemma replace_char_removes old new s :
  old <> new -> has_char old (replace_char old new s) = false.
Proof.
  intros N. induction s as [|c s IH]; simpl; [reflexivity|].
  rewrite IH, orb_false_r.
  destruct (Ascii.eqb_spec c old) as [->|D].
  - apply Ascii.eqb_neq. congruence.
  - now apply Ascii.eqb_neq.
Qed.

Lemma digits_have_no_space d :
  has_char (ascii_of_nat 32) (NilEmpty.string_of_uint d) = false.
Proof.
  induction d; simpl; auto.
Qed.

Lemma str_int_has_no_space z : has_char (ascii_of_nat 32) (str_int z) = false.
Proof.
  unfold str_int, NilZero.string_of_int, NilZero.string_of_uint.
  destruct (Z.to_int z) as [d|d]; destruct d; simpl;
    auto using digits_have_no_space.
Qed.

(** X7.  A slug has no space anywhere: those of the title have become
    hyphens, and the hyphen and the seconds that follow bring none. *)
Theorem slug_has_no_space form_title seconds :
  has_char (ascii_of_nat 32) (slug_of form_title seconds) = false.
Proof.
  unfold slug_of.
  rewrite !has_char_sapp, replace_char_removes by discriminate.
  now rewrite str_int_has_no_space.
Qed.

Lemma rstrip_no_trailing c s r :
  rstrip c s <> (r ++ String c EmptyString)%string.
Proof.
  revert r. induction s as [|a s IH]; intros r; simpl.
  - destruct r; discriminate.
  - destruct (rstrip c s) as [|b t] eqn:R.
    + destruct (Ascii.eqb_spec a c) as [->|N].
      * destruct r; discriminate.
      * destruct r as [|x [|y r]]; simpl; try discriminate. congruence.
    + destruct r as [|x r]; simpl.
      * now intros [= _ E].
      * intros [= _ E]. exact (IH r E).
Qed.

Lemma rstrip_decompose c s :
  exists k, s = (rstrip c s ++ times c k)%string.
Proof.
  induction s as [|a s [k IH]]; simpl.
  - now exists 0.
  - destruct (rstrip c s) as [|b t] eqn:R.
    + destruct (Ascii.eqb_spec a c) as [->|N].
      * exists (S k). simpl. now rewrite IH at 1.
      * exists k. simpl. now rewrite IH at 1.
    + exists k. simpl. now rewrite IH at 1.
Qed.

Lemma rstrip_times c s k : rstrip c (s ++ times c k) = rstrip c s.
Proof.
  induction s as [|a s IH]; simpl.
  - induction k as [|k IHk]; simpl; [reflexivity|].
    now rewrite IHk, Ascii.eqb_refl.
  - now rewrite IH.
Qed.

(** X8.  A link is made from [PUBLIC_BASE_URL] without its trailing
    slashes, whatever their number: what is left never ends with a slash,
    the base is what is left followed by slashes only, and more slashes at
    the end of the base give the same link. *)
Theorem share_link_ignores_trailing_slashes base slug :
  share_link base slug
  = (rstrip (ascii_of_nat 47) base ++ "/f/" ++ slug)%string /\
  (forall r, rstrip (ascii_of_nat 47) base <> (r ++ "/")%string) /\
  (exists k, base
             = (rstrip (ascii_of_nat 47) base ++ times (ascii_of_nat 47) k)
                 %string) /\
  forall k, share_link (base ++ times (ascii_of_nat 47) k) slug
            = share_link base slug.
Proof.
  split; [reflexivity|]. split; [apply rstrip_no_trailing|].
  split; [apply rstrip_decompose|].
  intros k. unfold share_link. now rewrite rstrip_times.
Qed.

(** ** Analytics *)

Lemma str_oid_injective n m : str_oid n = str_oid m -> n = m.
Proof.
  unfold str_oid. intros E.
  apply DecimalNat.Unsigned.to_uint_inj.
  assert (N : forall k, Nat.to_uint k <> Decimal.Nil).
  { intros k. rewrite <- (DecimalNat.Unsigned.of_to k) at 1.
    rewrite DecimalNat.Unsigned.to_of. apply DecimalFacts.unorm_nonnil. }
  pose proof (NilZero.usu (Nat.to_uint n) (N n)) as A.
  pose proof (NilZero.usu (Nat.to_uint m) (N m)) as B.
  rewrite E in A. congruence.
Qed.

Lemma filter_app_last (A : Type) (p : A -> bool) l x :
  filter p (l ++ [x]) = filter p l ++ (if p x then [x] else []).
Proof.
  rewrite filter_app. reflexivity.
Qed.

(** A run of [submit_form] leaves the forms alone and at most appends one
    Submission. *)
Lemma submit_keeps_forms env slug request w r w' :
  submit_form env slug request w = (r, w') ->
  form_coll w' = form_coll w /\
  (submission_coll w' = submission_coll w \/
   exists doc, submission_coll w' = submission_coll w ++ [doc]).
Proof.
  intros Hrun.
  destruct (submit_form_run env slug request w) as (found & _ & R).
  destruct found as [form_doc|].
  2:{ rewrite Hrun in R. injection R as _ ->. auto. }
  destruct R as (p & w1 & P & R).
  pose proof (read_payload_effects _ _ _ P) as [(Fc & Sc & _) _].
  destruct p as [e|[d links]].
  { rewrite Hrun in R. injection R as _ ->. auto. }
  destruct R as (v & _ & R).
  destruct v as [e|[]].
  { rewrite Hrun in R. injection R as _ ->. auto. }
  destruct (checked_links links) as [ls|].
  2:{ rewrite Hrun in R. injection R as _ ->. auto. }
  destruct R as (w2 & mir & R & Fc2 & Sc2 & _).
  rewrite Hrun in R. injection R as _ ->.
  split; [congruence|]. right. eexists. now rewrite Sc2, Sc.
Qed.

Lemma form_analytics_found sort slug w form_doc :
  find_one_form slug w = (inr (Some form_doc), w) ->
  form_analytics sort slug w
  = (inr (mkAnalytics
            (List.length (find_submissions (str_oid (form_oid form_doc)) w))
            (firstn 5 (sort (find_submissions (str_oid (form_oid form_doc))
                                              w)))),
     w).
Proof.
  intros F. unfold form_analytics, bind. now rewrite F.
Qed.

(** X9.  An accepted submission is counted once, for the form of its slug
    and for no form with another identifier: after the run the count of
    [form_analytics] for the slug is one more than before, and the count
    for any other form is what it was. *)
Theorem accepted_submission_is_counted env sort slug request w resp w'
        (Hrun : submit_form env slug request w = (inr resp, w')) :
  exists form_doc before after,
    find_one_form slug w = (inr (Some form_doc), w) /\
    form_analytics sort slug w = (inr before, w) /\
    form_analytics sort slug w' = (inr after, w') /\
    count after = S (count before) /\
    forall other g,
      find_one_form other w = (inr (Some g), w) ->
      form_oid g <> form_oid form_doc ->
      exists b a,
        form_analytics sort other w = (inr b, w) /\
        form_analytics sort other w' = (inr a, w') /\
        count a = count b.
Proof.
  destruct (accepted_run _ _ _ _ Hrun) as (form_doc & mir & Ff & _ & Sc & _).
  destruct (submit_keeps_forms _ _ _ _ Hrun) as [Fc _].
  assert (Same : forall s g, find_one_form s w = (inr (Some g), w) ->
                             find_one_form s w' = (inr (Some g), w')).
  { unfold find_one_form. intros s g [= E]. now rewrite Fc, E. }
  exists form_doc. eexists. eexists.
  split; [exact Ff|].
  split; [exact (form_analytics_found sort Ff)|].
  split; [exact (form_analytics_found sort (Same _ _ Ff))|].
  split.
  - simpl. unfold find_submissions. rewrite Sc, filter_app_last.
    simpl. rewrite String.eqb_refl, length_app. simpl. lia.
  - intros other g Fg N. eexists. eexists.
    split; [exact (form_analytics_found sort Fg)|].
    split; [exact (form_analytics_found sort (Same _ _ Fg))|].
    simpl. unfold find_submissions. rewrite Sc, filter_app_last. simpl.
    destruct (String.eqb_spec (str_oid (form_oid form_doc))
                              (str_oid (form_oid g))) as [E|_].
    + apply str_oid_injective in E. congruence.
    + now rewrite app_nil_r.
Qed.

Lemma accepted_submission_is_counted_witness :
  exists form_doc before after,
    find_one_form "rsvp" (world_of rsvp)
    = (inr (Some form_doc), world_of rsvp) /\
    form_analytics (fun l => l) "rsvp" (world_of rsvp)
    = (inr before, world_of rsvp) /\
    form_analytics
      (fun l => l) "rsvp"
      (snd (submit_form healthy "rsvp"
                        (JsonRequest (Some [("name", Scalar (SStr "Ana"))]))
                        (world_of rsvp)))
    = (inr after,
       snd (submit_form healthy "rsvp"
                        (JsonRequest (Some [("name", Scalar (SStr "Ana"))]))
                        (world_of rsvp))) /\
    count after = S (count before) /\
    forall other g,
      find_one_form other (world_of rsvp) = (inr (Some g), world_of rsvp) ->
      form_oid g <> form_oid form_doc ->
      exists b a,
        form_analytics (fun l => l) other (world_of rsvp)
        = (inr b, world_of rsvp) /\
        form_analytics
          (fun l => l) other
          (snd (submit_form healthy "rsvp"
                            (JsonRequest (Some [("name", Scalar (SStr "Ana"))]))
                            (world_of rsvp)))
        = (inr a,
           snd (submit_form healthy "rsvp"
                            (JsonRequest (Some [("name", Scalar (SStr "Ana"))]))
                            (world_of rsvp))) /\
        count a = count b.
Proof.
  apply (@accepted_submission_is_counted
           healthy (fun l => l) "rsvp"
           (JsonRequest (Some [("name", Scalar (SStr "Ana"))]))
           (world_of rsvp) (mkResponse "ok" "10")).
  vm_compute. reflexivity.
Defined.

(** X10.  When the database sorts by returning its input in another
    order, [form_analytics] changes nothing, counts the submissions whose
    [form_id] is the identifier of the form, and lists as recent at most
    five of them, five as soon as there are that many; an unknown slug is
    answered 404. *)
Theorem analytics_recent_at_most_five sort slug w
        (Hsort : forall l, Permutation (sort l) l) :
  match form_analytics sort slug w with
  | (inr a, w0) =>
      exists form_doc,
      find_one_form slug w = (inr (Some form_doc), w) /\
      w0 = w /\
      count a
      = List.length (filter (fun s => String.eqb (form_id s)
                                        (str_oid (form_oid form_doc)))
                            (submission_coll w)) /\
      List.length (recent a) = Nat.min 5 (count a) /\
      forall s, In s (recent a) ->
                In s (submission_coll w) /\
                form_id s = str_oid (form_oid form_doc)
  | (inl e, w0) =>
      e = FormNotFound /\ w0 = w /\ find_one_form slug w = (inr None, w)
  end.
Proof.
  destruct (find_one_form slug w) as [found w0] eqn:F.
  assert (W : w0 = w) by (unfold find_one_form in F; now injection F).
  subst w0. destruct found as [e|[form_doc|]];
    [unfold find_one_form in F; discriminate| |].
  - rewrite (form_analytics_found sort F). exists form_doc.
    split; [reflexivity|]. split; [reflexivity|]. cbn [count recent].
    split; [reflexivity|]. split.
    + rewrite length_firstn. f_equal.
      apply Permutation_length, Hsort.
    + intros s I.
      assert (I' : In s (sort (find_submissions (str_oid (form_oid form_doc))
                                                w))).
      { rewrite <- (firstn_skipn 5). apply in_or_app. now left. }
      clear I. rename I' into I.
      apply (Permutation_in _ (Hsort _)) in I.
      unfold find_submissions in I. apply filter_In in I.
      destruct I as [I E]. split; [exact I|]. now apply String.eqb_eq.
  - unfold form_analytics, bind. rewrite F. repeat split.
Qed.

Lemma analytics_recent_at_most_five_witness :
  match form_analytics (fun l => rev l) "rsvp" (world_of rsvp) with
  | (inr a, w0) =>
      exists form_doc,
      find_one_form "rsvp" (world_of rsvp)
      = (inr (Some form_doc), world_of rsvp) /\
      w0 = world_of rsvp /\
      count a
      = List.length (filter (fun s => String.eqb (form_id s)
                                        (str_oid (form_oid form_doc)))
                            (submission_coll (world_of rsvp))) /\
      List.length (recent a) = Nat.min 5 (count a) /\
      forall s, In s (recent a) ->
                In s (submission_coll (world_of rsvp)) /\
                form_id s = str_oid (form_oid form_doc)
  | (inl e, w0) =>
      e = FormNotFound /\ w0 = world_of rsvp /\
      find_one_form "rsvp" (world_of rsvp) = (inr None, world_of rsvp)
  end.
Proof.
  apply (@analytics_recent_at_most_five (fun l => rev l) "rsvp"
                                        (world_of rsvp)).
  intros l. apply Permutation_sym, Permutation_rev.
Defined.

(** ** Export *)

Lemma drop_nothing n : drop n EmptyString = EmptyString.
Proof.
  destruct n; reflexivity.
Qed.

Lemma take_nothing s : take 0 s = EmptyString.
Proof.
  destruct s; reflexivity.
Qed.

Lemma sio_write_empty s :
  sio_write s (mkStringIO EmptyString 0) = mkStringIO s (String.length s).
Proof.
  unfold sio_write. cbn [buf pos String.length nulls Nat.sub append take].
  now rewrite drop_nothing, sapp_nil_r.
Qed.

Lemma iter_subs_lines fids subs :
  iter_subs fids subs (mkStringIO EmptyString 0)
  = map (fun s => writerow (export_row fids s)) subs.
Proof.
  induction subs as [|s subs IH]; [reflexivity|].
  cbn [iter_subs map]. rewrite sio_write_empty.
  unfold sio_truncate, sio_seek. cbn [buf pos].
  rewrite take_nothing. now rewrite IH.
Qed.

Lemma export_row_cells fids s :
  export_row fids s
  = SStr (isoformat (created_at s)) :: map (export_cell (data s)) fids.
Proof.
  unfold export_row.
  assert (G : forall acc,
             fold_left (fun row fid => row ++ [export_cell (data s) fid])
                       fids acc
             = acc ++ map (export_cell (data s)) fids).
  { induction fids as [|k fids IH]; intros acc; simpl.
    - now rewrite app_nil_r.
    - now rewrite IH, <- app_assoc. }
  now rewrite G.
Qed.

(** X11.  [export_csv] streams the header line, ["timestamp"] and the
    identifiers of the fields, and then one line for each Submission of
    the form, in the order of the collection: each chunk is one line,
    because the buffer is emptied after each one.  A line holds the
    creation stamp and one cell per field, taken from the attribute map
    alone.  Nothing is changed, and an unknown slug is answered 404. *)
Theorem export_one_line_per_submission slug w :
  match export_csv slug w with
  | (inr chunks, w0) =>
      exists form_doc,
      find_one_form slug w = (inr (Some form_doc), w) /\
      w0 = w /\
      chunks
      = writerow (SStr "timestamp" :: map SStr (map (@id) (fields form_doc)))
        :: map (fun s =>
                  writerow (SStr (isoformat (created_at s))
                            :: map (export_cell (data s))
                                   (map (@id) (fields form_doc))))
               (filter (fun s => String.eqb (form_id s)
                                   (str_oid (form_oid form_doc)))
                       (submission_coll w))
  | (inl e, w0) =>
      e = FormNotFound /\ w0 = w /\ find_one_form slug w = (inr None, w)
  end.
Proof.
  destruct (find_one_form slug w) as [found w0] eqn:F.
  assert (W : w0 = w) by (unfold find_one_form in F; now injection F).
  subst w0. destruct found as [e|[form_doc|]];
    [unfold find_one_form in F; discriminate| |].
  - unfold export_csv, bind. rewrite F.
    exists form_doc. split; [reflexivity|]. split; [reflexivity|].
    unfold iter_rows. rewrite sio_write_empty.
    unfold sio_truncate, sio_seek. cbn [buf pos].
    rewrite take_nothing, iter_subs_lines. f_equal.
    apply map_ext. intros s. now rewrite export_row_cells.
  - unfold export_csv, bind. rewrite F. repeat split.
Qed.





(** ** The writer's quoting *)

Lemma sep_next_tail row : sep_next (csv_tail row).
Proof.
  destruct row as [|f rest]; simpl.
  - exists CR, (String LF EmptyString). split; [reflexivity | now right].
  - eexists. eexists. split; [reflexivity | now left].
Qed.

Lemma sep_is_special c : c = comma \/ c = CR -> csv_special c = true.
Proof.
  intros [->| ->]; reflexivity.
Qed.

Lemma sep_is_no_quote c : c = comma \/ c = CR -> Ascii.eqb c dquote = false.
Proof.
  intros [->| ->]; reflexivity.
Qed.

Lemma read_plain_field f rest :
  needs_quotes f = false -> sep_next rest ->
  read_plain (f ++ rest) = (f, rest).
Proof.
  intros Q (c & r & -> & S).
  induction f as [|x f IH]; cbn [append read_plain].
  - now rewrite (sep_is_special S).
  - cbn [needs_quotes] in Q. apply orb_false_elim in Q.
    destruct Q as [Qx Qf]. now rewrite Qx, (IH Qf).
Qed.

Lemma read_quoted_field f rest :
  sep_next rest ->
  read_quoted (double_quotes f ++ String dquote rest) = (f, rest).
Proof.
  intros (c & r & -> & S).
  induction f as [|x f IH]; cbn [double_quotes append read_quoted].
  - now rewrite Ascii.eqb_refl, (sep_is_no_quote S).
  - destruct (Ascii.eqb x dquote) eqn:N; cbn [append read_quoted].
    + rewrite !Ascii.eqb_refl, IH. apply Ascii.eqb_eq in N. now subst x.
    + now rewrite N, IH.
Qed.

Lemma read_written_field f rest :
  sep_next rest -> read_field (csv_field f ++ rest) = (f, rest).
Proof.
  intros S. unfold csv_field.
  destruct (needs_quotes f) eqn:Q.
  - cbn [append read_field]. rewrite Ascii.eqb_refl, sapp_assoc.
    cbn [append]. now apply read_quoted_field.
  - destruct f as [|x f].
    + destruct S as (c & r & -> & S). cbn [append read_field read_plain].
      now rewrite (sep_is_no_quote S), (sep_is_special S).
    + pose proof Q as Q'. cbn [needs_quotes] in Q'.
      apply orb_false_elim in Q'. destruct Q' as [Qx _].
      assert (N : Ascii.eqb x dquote = false).
      { unfold csv_special in Qx.
        repeat (apply orb_false_elim in Qx; destruct Qx as [Qx ?]).
        assumption. }
      change (read_field (String x f ++ rest))
        with (if Ascii.eqb x dquote
              then read_quoted (f ++ rest)
              else read_plain (String x f ++ rest)).
      rewrite N. now apply read_plain_field.
Qed.

Lemma read_lone_empty rest :
  sep_next rest ->
  read_field (String dquote (String dquote rest)) = (EmptyString, rest).
Proof.
  intros S. cbn [read_field]. rewrite Ascii.eqb_refl.
  apply (read_quoted_field EmptyString S).
Qed.

Lemma csv_tail_injective r1 : forall r2,
  csv_tail r1 = csv_tail r2 -> r1 = r2.
Proof.
  induction r1 as [|f r1 IH]; intros [|g r2] E; simpl in E.
  - reflexivity.
  - discriminate.
  - discriminate.
  - injection E as E.
    pose proof (read_written_field f (sep_next_tail r1)) as A.
    pose proof (read_written_field g (sep_next_tail r2)) as B.
    rewrite E in A. rewrite A in B. injection B as -> T.
    f_equal. now apply IH.
Qed.

(** A record is its first field as written, then the rest. *)
Lemma csv_record_split f rest :
  csv_record (f :: rest)
  = ((match f, rest with
      | EmptyString, [] => String dquote (String dquote EmptyString)
      | _, _ => csv_field f
      end) ++ csv_tail rest)%string.
Proof.
  assert (G : forall g l,
             (String.concat (String comma EmptyString)
                            (map csv_field (g :: l)) ++ CRLF)%string
             = (csv_field g ++ csv_tail l)%string).
  { intros g l. revert g. induction l as [|h l IH]; intros g.
    - reflexivity.
    - change (String.concat (String comma EmptyString)
                            (map csv_field (g :: h :: l)))
        with (csv_field g ++ String comma EmptyString
              ++ String.concat (String comma EmptyString)
                               (map csv_field (h :: l)))%string.
      rewrite !sapp_assoc. cbn [csv_tail]. rewrite <- IH. reflexivity. }
  unfold csv_record. destruct f as [|x f]; destruct rest as [|h l];
    try apply G. reflexivity.
Qed.

Lemma read_record f rest :
  read_field (csv_record (f :: rest)) = (f, csv_tail rest).
Proof.
  rewrite csv_record_split.
  destruct f as [|x f]; [destruct rest as [|h l]|].
  - apply read_lone_empty, sep_next_tail.
  - apply (read_written_field EmptyString), sep_next_tail.
  - apply read_written_field, sep_next_tail.
Qed.

Lemma csv_record_injective r1 r2 : csv_record r1 = csv_record r2 -> r1 = r2.
Proof.
  destruct r1 as [|f r1]; destruct r2 as [|g r2]; intros E.
  - reflexivity.
  - exfalso. pose proof (read_record g r2) as B. rewrite <- E in B.
    change (csv_record []) with (csv_tail []) in B.
    destruct r2 as [|h l].
    + cbv in B. injection B as <-. cbv in E. discriminate.
    + cbv in B. discriminate.
  - exfalso. pose proof (read_record f r1) as B. rewrite E in B.
    change (csv_record []) with (csv_tail []) in B.
    destruct r1 as [|h l].
    + cbv in B. injection B as <-. cbv in E. discriminate.
    + cbv in B. discriminate.
  - pose proof (read_record f r1) as A. pose proof (read_record g r2) as B.
    rewrite E in A. rewrite A in B. injection B as -> T.
    f_equal. now apply csv_tail_injective.
Qed.

(** X13.  Two rows are written as the same line exactly when their cells
    print alike ([None] as the empty text, a number or a boolean as [str]
    prints it): the quoting keeps a comma, a quote or a line break inside
    a cell apart from the separators, whatever the number of cells.  So
    two Submissions exported as the same line have the same printed stamp
    and the same printed cells. *)
Theorem rows_written_alike_print_alike :
  (forall r1 r2,
      writerow r1 = writerow r2 <-> map csv_text r1 = map csv_text r2) /\
  (forall fids s1 s2,
      writerow (export_row fids s1) = writerow (export_row fids s2) ->
      isoformat (created_at s1) = isoformat (created_at s2) /\
      map csv_text (map (export_cell (data s1)) fids)
      = map csv_text (map (export_cell (data s2)) fids)).
Proof.
  assert (Inj : forall r1 r2,
             writerow r1 = writerow r2 <-> map csv_text r1 = map csv_text r2).
  { intros r1 r2. unfold writerow. split.
    - apply csv_record_injective.
    - now intros ->. }
  split; [exact Inj|].
  intros fids s1 s2 E. apply Inj in E.
  rewrite !export_row_cells in E.
  cbn [map csv_text py_str] in E. injection E as E1 E2. now split.
Qed.

(** ** More on the multipart loop *)

Lemma upload_with_permissions env p f w :
  fst (upload_file_to_drive (with_permissions env p) f w)
  = fst (upload_file_to_drive env f w) /\
  snd (upload_file_to_drive (with_permissions env p) f w)
  = snd (upload_file_to_drive env f w).
Proof.
  unfold upload_file_to_drive, get_google_services, with_permissions.
  monad_run.
  destruct (opt_truthy (SERVICE_ACCOUNT_JSON env));
    [destruct (credentials_error env)|]; try (split; reflexivity).
  destruct (build_error env); [split; reflexivity|].
  destruct (opt_truthy (DRIVE_FOLDER_ID env)); [|split; reflexivity].
  destruct (files_create env f) as [e|dr]; [split; reflexivity|].
  destruct (p (drive_id dr)); destruct (permissions_create env (drive_id dr));
    split; reflexivity.
Qed.

(** X16.  The permission call cannot fail an upload or a submission:
    whatever it answers, raising included, the upload returns the same
    link and the submission runs to the same answer and the same world. *)
Theorem permission_failure_is_swallowed env p slug request w f :
  upload_file_to_drive (with_permissions env p) f w
  = upload_file_to_drive env f w /\
  submit_form (with_permissions env p) slug request w
  = submit_form env slug request w.
Proof.
  split.
  - destruct (upload_with_permissions env p f w) as [A B].
    destruct (upload_file_to_drive (with_permissions env p) f w).
    destruct (upload_file_to_drive env f w). simpl in A, B. now subst.
  - assert (P : read_payload (with_permissions env p) request w
                = read_payload env request w).
    { rewrite !read_payload_reads.
      destruct request as [[d|]|parts]; reflexivity. }
    cbv beta iota delta [submit_form bind find_one_form].
    destruct (find _ (form_coll w)) as [form_doc|]; [|reflexivity].
    rewrite P. reflexivity.
Qed.

Lemma get_google_services_unconfigured env w :
  opt_truthy (SERVICE_ACCOUNT_JSON env) = false ->
  get_google_services env w
  = (inl (HTTPException 500 "GOOGLE_SERVICE_ACCOUNT_JSON not set"), w).
Proof.
  intros H. unfold get_google_services, bind. now rewrite H.
Qed.

(** X19.  Without the Google credentials no submission is turned away:
    whatever the request, parts with a [filename] parameter included, a
    payload that passes the required check is stored and answered ["ok"].
    The mirror step raises the 500 of [get_google_services], which is
    printed and dropped; no row is sent and Drive is not called. *)
Theorem unconfigured_google_blocks_no_submission env slug request w form_doc
        (Hform : find_one_form slug w = (inr (Some form_doc), w))
        (Hcfg : opt_truthy (SERVICE_ACCOUNT_JSON env) = false)
        (Hvalid : required_validation (fields form_doc)
                                      (payload_data env request) w
                  = (inr tt, w)) :
  submit_form env slug request w
  = (inr (mkResponse "ok" (str_oid (next_oid w))),
     mkWorld (form_coll w)
             (submission_coll w
              ++ [committed env form_doc (payload_data env request) [] w])
             (S (next_oid w)) (S (clock_reads w))
             (trace w
              ++ [DbInsert "submission" (next_oid w);
                  Print "Sheet append error:"
                        (HTTPException
                           500 "GOOGLE_SERVICE_ACCOUNT_JSON not set")])).
Proof.
  cbv beta iota delta [submit_form bind]. rewrite Hform.
  rewrite read_payload_reads, Hvalid.
  cbv beta iota zeta delta [SubmissionSchema checked_links ret
                            create_document now bind try_except
                            append_submission_to_sheet].
  cbn [clock_reads next_oid form_coll submission_coll trace].
  rewrite get_google_services_unconfigured by exact Hcfg.
  unfold emit, committed. cbn. now rewrite <- app_assoc.
Qed.

Lemma unconfigured_google_blocks_no_submission_witness :
  submit_form unconfigured "rsvp"
              (FormRequest [("name", Text "Ana"); ("photo", File cv)])
              (world_of rsvp)
  = (inr (mkResponse "ok" (str_oid (next_oid (world_of rsvp)))),
     mkWorld (form_coll (world_of rsvp))
             (submission_coll (world_of rsvp)
              ++ [committed unconfigured rsvp
                            (payload_data
                               unconfigured
                               (FormRequest [("name", Text "Ana");
                                             ("photo", File cv)]))
                            [] (world_of rsvp)])
             (S (next_oid (world_of rsvp)))
             (S (clock_reads (world_of rsvp)))
             (trace (world_of rsvp)
              ++ [DbInsert "submission" (next_oid (world_of rsvp));
                  Print "Sheet append error:"
                        (HTTPException
                           500 "GOOGLE_SERVICE_ACCOUNT_JSON not set")])).
Proof.
  apply (@unconfigured_google_blocks_no_submission
           unconfigured "rsvp"
           (FormRequest [("name", Text "Ana"); ("photo", File cv)])
           (world_of rsvp) rsvp); reflexivity.
Defined.

(** ** More on the required check *)

Lemma dict_get_remove (V : Type) k k' (d : dict V) :
  dict_get k' (dict_remove k d)
  = if String.eqb k' k then None else dict_get k' d.
Proof.
  induction d as [|[k0 v0] d IH]; simpl.
  - now destruct (String.eqb k' k).
  - destruct (String.eqb_spec k k0) as [->|N].
    + rewrite IH. destruct (String.eqb k' k0); reflexivity.
    + simpl. rewrite IH.
      destruct (String.eqb_spec k' k0) as [->|N'].
      * destruct (String.eqb_spec k0 k); congruence.
      * reflexivity.
Qed.

Lemma required_loop_ext items d d' w :
  (forall k, truthy_opt (dict_get k d) = truthy_opt (dict_get k d')) ->
  required_loop items d w = required_loop items d' w.
Proof.
  intros E. induction items as [|[fid field] items IH]; simpl; auto.
  unfold is_missing. rewrite (E fid).
  destruct (required field && negb (truthy_opt (dict_get fid d')));
    [reflexivity | exact IH].
Qed.

(** X20.  The required check cannot tell a falsy value from a missing
    one: an attribute whose value is falsy can be deleted from the
    attribute map without changing what the check answers, for any
    form. *)
Theorem falsy_is_absent fs d k v w
        (Hget : dict_get k d = Some v)
        (Hfalsy : truthy v = false) :
  required_validation fs d w = required_validation fs (dict_remove k d) w.
Proof.
  apply required_loop_ext. intros k'. rewrite dict_get_remove.
  destruct (String.eqb_spec k' k) as [->|N]; [|reflexivity].
  rewrite Hget. exact Hfalsy.
Qed.

Lemma falsy_is_absent_witness :
  required_validation (fields rsvp)
                      [("name", Scalar (SInt 0)); ("guests", Scalar (SStr "2"))]
                      (world_of rsvp)
  = required_validation (fields rsvp)
                        (dict_remove "name" [("name", Scalar (SInt 0));
                                             ("guests", Scalar (SStr "2"))])
                        (world_of rsvp).
Proof.
  apply (@falsy_is_absent (fields rsvp)
                          [("name", Scalar (SInt 0));
                           ("guests", Scalar (SStr "2"))]
                          "name" (Scalar (SInt 0)) (world_of rsvp));
    reflexivity.
Defined.

(** X21.  In a multipart submission a key passes the required check when
    one text that is not empty arrived under it, or when two or more
    arrived, empty or not; it fails when none arrived or when the only one
    is empty.  A part with a [filename] parameter arrives as a text that
    is not empty, so its key always passes. *)
Theorem multipart_truthiness env parts w d links w1 k
        (Hread : read_payload env (FormRequest parts) w
                 = (inr (d, links), w1)) :
  truthy_opt (dict_get k d)
  = match values_of env k parts with
    | [] => false
    | [v] => str_truthy v
    | _ :: _ :: _ => true
    end /\
  forall u, In (k, File u) parts -> truthy_opt (dict_get k d) = true.
Proof.
  apply loop_data in Hread. destruct Hread as [G _].
  rewrite G. split.
  - destruct (values_of env k parts) as [|v [|v' vs]]; reflexivity.
  - intros u I. apply encode_truthy with (v := str_upload env k u).
    + exact (values_of_in env _ _ _ I).
    + apply str_upload_truthy.
Qed.

Lemma multipart_truthiness_witness :
  truthy_opt (dict_get "name" [("name", Seq [SStr ""; SStr ""])])
  = match values_of healthy "name" [("name", Text ""); ("name", Text "")] with
    | [] => false
    | [v] => str_truthy v
    | _ :: _ :: _ => true
    end /\
  forall u, In ("name", File u) [("name", Text ""); ("name", Text "")] ->
            truthy_opt (dict_get "name" [("name", Seq [SStr ""; SStr ""])])
            = true.
Proof.
  exact (@multipart_truthiness
           healthy [("name", Text ""); ("name", Text "")] (world_of rsvp)
           _ _ _ "name" eq_refl).
Defined.

(** ** The shape of what is read *)

Lemma existsb_eqb_in k ks :
  existsb (String.eqb k) ks = true <-> In k ks.
Proof.
  rewrite existsb_exists. split.
  - intros (x & I & E). apply String.eqb_eq in E. now subst.
  - intros I. exists k. split; [exact I | apply String.eqb_refl].
Qed.

Lemma dict_keys_set_order (V : Type) k (v : V) d :
  dict_keys (dict_set k v d) = add_key (dict_keys d) k.
Proof.
  unfold add_key, dict_keys. induction d as [|[k0 v0] d IH]; simpl.
  - reflexivity.
  - destruct (String.eqb k k0) eqn:E; simpl; [reflexivity|].
    rewrite IH. destruct (existsb (String.eqb k) (map fst d)); reflexivity.
Qed.

Lemma add_key_nodup ks k : NoDup ks -> NoDup (add_key ks k).
Proof.
  intros N. unfold add_key.
  destruct (existsb (String.eqb k) ks) eqn:E; [exact N|].
  apply NoDup_app; [exact N | repeat constructor; intros [] |].
  intros x I [<-|[]].
  apply existsb_eqb_in in I. congruence.
Qed.

Lemma merge_text_keys_order k v d :
  dict_keys (merge_text k v d) = add_key (dict_keys d) k.
Proof.
  unfold merge_text.
  destruct (dict_get k d) as [[x|xs]|]; apply dict_keys_set_order.
Qed.

Lemma fold_parts_keys_order env parts : forall d,
  dict_keys (fold_parts env parts d)
  = fold_left add_key (map fst parts) (dict_keys d).
Proof.
  induction parts as [|[k v] parts IH]; intros d; [reflexivity|].
  unfold fold_parts in *. simpl. now rewrite IH, merge_text_keys_order.
Qed.

Lemma fold_add_key_nodup ks : forall acc,
  NoDup acc -> NoDup (fold_left add_key ks acc).
Proof.
  induction ks as [|k ks IH]; intros acc N; simpl; auto.
  apply IH. now apply add_key_nodup.
Qed.

(** X22.  The attribute map read from a multipart payload holds each key
    once: its keys are the field names of the parts, with or without a
    [filename] parameter, in the order of their first arrival; and no link
    is read. *)
Theorem keys_in_first_arrival_order env parts w d links w1
        (Hread : read_payload env (FormRequest parts) w
                 = (inr (d, links), w1)) :
  dict_keys d = first_arrivals (raw_keys (FormRequest parts)) /\
  NoDup (dict_keys d) /\
  links = [].
Proof.
  rewrite read_payload_reads in Hread. injection Hread as <- <- <-.
  change (payload_data env (FormRequest parts))
    with (fold_parts env parts []).
  assert (K : dict_keys (fold_parts env parts [])
              = first_arrivals (raw_keys (FormRequest parts))).
  { simpl. now rewrite fold_parts_keys_order. }
  split; [exact K|]. split; [|reflexivity].
  rewrite K. apply fold_add_key_nodup. constructor.
Qed.

Lemma keys_in_first_arrival_order_witness :
  dict_keys [("b", Seq [SStr "1"; SStr (str_upload healthy "b" cv)]);
             ("a", Scalar (SStr "2"))]
  = first_arrivals
      (raw_keys
         (FormRequest [("b", Text "1"); ("a", Text "2"); ("b", File cv)])) /\
  NoDup (dict_keys [("b", Seq [SStr "1"; SStr (str_upload healthy "b" cv)]);
                    ("a", Scalar (SStr "2"))]) /\
  @nil (string * option string) = [].
Proof.
  exact (@keys_in_first_arrival_order
           healthy [("b", Text "1"); ("a", Text "2"); ("b", File cv)]
           (world_of survey) _ _ _ eq_refl).
Defined.

(** ** The mirror step, once *)

Lemma mirror_shapes env sheet fs d w :
  exists w' evs,
    try_except (append_submission_to_sheet env sheet fs d)
               (fun e => emit (Print "Sheet append error:" e)) w
    = (inr tt, w') /\
    trace w' = trace w ++ evs /\
    let row := build_row (utcnow env (clock_reads w)) fs d in
    (evs = [SheetAppend (range_of sheet) row] /\
     values_append env (range_of sheet) row = None) \/
    (exists e,
        evs = [SheetAppend (range_of sheet) row;
               Print "Sheet append error:" e] /\
        values_append env (range_of sheet) row = Some e) \/
    (exists e, evs = [Print "Sheet append error:" e]).
Proof.
  unfold append_submission_to_sheet, try_except.
  destruct (get_google_services_pure env w) as [g G].
  unfold bind at 1. rewrite G.
  destruct g as [e|[]].
  { eexists. exists [Print "Sheet append error:" e].
    split; [reflexivity|]. split; [reflexivity|]. right. right. eauto. }
  destruct (ensure_master_sheet_pure env w) as [m Hm].
  unfold bind at 1. rewrite Hm.
  destruct m as [e|[]].
  { eexists. exists [Print "Sheet append error:" e].
    split; [reflexivity|]. split; [reflexivity|]. right. right. eauto. }
  unfold now. monad_run.
  match goal with
  | |- context [values_append env ?a ?b] =>
      destruct (values_append env a b) as [e|] eqn:A
  end.
  - eexists. eexists. split; [reflexivity|]. cbn [trace].
    split; [now rewrite <- app_assoc|]. right. left.
    exists e. split; reflexivity.
  - eexists. eexists. split; [reflexivity|]. cbn [trace].
    split; [reflexivity|]. left. split; reflexivity.
Qed.

(** X23.  An accepted submission is inserted once and mirrored at most
    once, with no second try: after the insert the run either sends the
    one row and stops, or sends it, is refused and prints the error, or
    cannot reach the sheet and prints the error without sending anything.
    The forms are left as they were. *)
Theorem mirrored_at_most_once env slug request w resp w'
        (Hrun : submit_form env slug request w = (inr resp, w')) :
  exists form_doc d links w1 evs,
    find_one_form slug w = (inr (Some form_doc), w) /\
    read_payload env request w = (inr (d, links), w1) /\
    form_coll w' = form_coll w /\
    trace w' = trace w1 ++ DbInsert "submission" (next_oid w) :: evs /\
    let row := build_row (utcnow env (S (clock_reads w))) (fields form_doc)
                         (combined d links) in
    let rng := range_of (sheet_name form_doc) in
    (evs = [SheetAppend rng row] /\ values_append env rng row = None) \/
    (exists e,
        evs = [SheetAppend rng row; Print "Sheet append error:" e] /\
        values_append env rng row = Some e) \/
    (exists e, evs = [Print "Sheet append error:" e]).
Proof.
  destruct (submit_form_run env slug request w) as (found & Ff & R).
  pose proof Ff as F. unfold find_one_form in F. injection F as F.
  destruct found as [form_doc|]; [|rewrite Hrun in R; discriminate].
  destruct R as (p & w1 & P & R).
  pose proof (read_payload_effects _ _ _ P) as [(Fc & _ & Nc & _) Cl].
  destruct p as [e|[d links]]; [rewrite Hrun in R; discriminate|].
  destruct R as (v & V & R).
  destruct v as [e|[]]; [rewrite Hrun in R; discriminate|].
  destruct (checked_links links) as [ls|] eqn:L;
    [|rewrite Hrun in R; discriminate].
  clear R.
  set (w2 := mkWorld (form_coll w1)
                     (submission_coll w1 ++ [committed env form_doc d ls w1])
                     (S (next_oid w1)) (S (clock_reads w1))
                     (trace w1 ++ [DbInsert "submission" (next_oid w1)])).
  destruct (mirror_shapes env (sheet_name form_doc) (fields form_doc)
                          (combined d links) w2)
    as (w3 & evs & M & T & Shape).
  assert (E : submit_form env slug request w
              = (inr (mkResponse "ok" (str_oid (next_oid w1))), w3)).
  { unfold submit_form, find_one_form, bind. rewrite F, P, V.
    unfold SubmissionSchema. rewrite L.
    unfold create_document, now, bind, ret. simpl.
    unfold committed in w2. fold w2. now rewrite M. }
  rewrite Hrun in E. injection E as _ ->.
  exists form_doc, d, links, w1, evs.
  split; [exact Ff|]. split; [exact P|]. split.
  { assert (Fm : form_coll w3 = form_coll w2).
    { pose proof (mirror_effects env (sheet_name form_doc) (fields form_doc)
                                 (combined d links) w2)
        as (w4 & evs4 & M4 & Fc4 & _).
      rewrite M in M4. now injection M4 as <-. }
    rewrite Fm. subst w2. simpl. exact Fc. }
  split.
  { rewrite T. subst w2. simpl. now rewrite <- app_assoc, Nc. }
  subst w2. simpl in Shape. rewrite Cl in Shape. exact Shape.
Qed.

Lemma mirrored_at_most_once_witness :
  exists form_doc d links w1 evs,
    find_one_form "rsvp" (world_of rsvp)
    = (inr (Some form_doc), world_of rsvp) /\
    read_payload sink_down
                 (JsonRequest (Some [("name", Scalar (SStr "Ana"))]))
                 (world_of rsvp)
    = (inr (d, links), w1) /\
    form_coll
      (snd (submit_form sink_down "rsvp"
                        (JsonRequest (Some [("name", Scalar (SStr "Ana"))]))
                        (world_of rsvp)))
    = form_coll (world_of rsvp) /\
    trace
      (snd (submit_form sink_down "rsvp"
                        (JsonRequest (Some [("name", Scalar (SStr "Ana"))]))
                        (world_of rsvp)))
    = trace w1 ++ DbInsert "submission" (next_oid (world_of rsvp)) :: evs /\
    let row := build_row (utcnow sink_down (S (clock_reads (world_of rsvp))))
                         (fields form_doc) (combined d links) in
    let rng := range_of (sheet_name form_doc) in
    (evs = [SheetAppend rng row] /\ values_append sink_down rng row = None) \/
    (exists e,
        evs = [SheetAppend rng row; Print "Sheet append error:" e] /\
        values_append sink_down rng row = Some e) \/
    (exists e, evs = [Print "Sheet append error:" e]).
Proof.
  apply (@mirrored_at_most_once
           sink_down "rsvp"
           (JsonRequest (Some [("name", Scalar (SStr "Ana"))]))
           (world_of rsvp) (mkResponse "ok" "10")).
  vm_compute. reflexivity.
Defined.

(** ** From creation to submission *)

Lemma FormFields_required raw fs :
  FormFields raw = Some fs ->
  (forall r, In r raw -> raw_required r <> Some true) ->
  forall f, In f fs -> required f = false.
Proof.
  revert fs. induction raw as [|r raw IH]; simpl; intros fs H Hreq f I.
  - injection H as <-. destruct I.
  - unfold FormFieldSchema in H.
    destruct (raw_id r); [|discriminate].
    destruct (raw_type r); [|discriminate].
    destruct (raw_label r); [|discriminate].
    destruct (FormFields raw) as [fs'|]; [|discriminate].
    injection H as <-. destruct I as [<-|I].
    + simpl. pose proof (Hreq r (or_introl eq_refl)) as N.
      destruct (raw_required r) as [[]|]; congruence.
    + apply (IH fs' eq_refl); auto.
Qed.

(** X24.  [required] defaults to [False]: a form created from fields none
    of which sets [required] to true, under a slug no older form has,
    accepts every request, be it a JSON object with a ["data"] object or
    without one, or a multipart body whatever its parts.  The Submission is
    stored under the identifier of the new form, with the attribute map
    read from the request and no link. *)
Theorem unrequired_form_accepts_anything aenv payload uid w resp w' request
        (Hrun : create_form aenv payload uid w = (inr resp, w'))
        (Hfresh : forall g, In g (form_coll (world w)) ->
                            share_slug g
                            <> Some (new_slug aenv (req_title payload)
                                              (world w)))
        (Hopt : forall r, In r (req_fields payload) ->
                          raw_required r <> Some true) :
  exists answer w'',
    submit_form (services aenv) (new_slug aenv (req_title payload) (world w))
                request (world w')
    = (inr answer, w'') /\
    exists doc,
      submission_coll w'' = submission_coll (world w') ++ [doc] /\
      form_id doc = resp_form_id resp /\
      data doc = payload_data (services aenv) request /\
      file_links doc = [].
Proof.
  destruct (created_form _ _ _ _ Hrun) as (fs & V & Fc & _ & -> & _).
  set (slug := new_slug aenv (req_title payload) (world w)) in *.
  set (f := mkForm (next_oid (world w)) (req_title payload)
                   (req_description payload) fs None
                   (Some (tab_title aenv (req_title payload) (world w)))
                   (Some slug) uid) in *.
  assert (F : find_one_form slug (world w') = (inr (Some f), world w')).
  { unfold find_one_form. rewrite Fc, find_app_last, find_none_all.
    - simpl. now rewrite String.eqb_refl.
    - intros g G. specialize (Hfresh g G).
      destruct (share_slug g) as [s|]; [|reflexivity].
      apply String.eqb_neq. congruence. }
  destruct (submit_form_run (services aenv) slug request (world w'))
    as (found & Ff & R).
  rewrite F in Ff. injection Ff as <-.
  destruct R as (p & w1 & P & R).
  rewrite read_payload_reads in P. injection P as <- <-.
  destruct R as (v & Hv & R).
  assert (Acc : v = inr tt).
  { unfold required_validation in Hv.
    rewrite required_loop_accepts in Hv; [now injection Hv|].
    intros [fid field] I. apply field_map_declared in I.
    destruct I as [I _]. unfold is_missing. simpl.
    now rewrite (FormFields_required _ V Hopt field I). }
  subst v. simpl in R. destruct R as (w'' & mir & R & _ & Sc & _).
  eexists. exists w''. split; [exact R|].
  eexists. split; [exact Sc|]. repeat split; reflexivity.
Qed.

Lemma unrequired_form_accepts_anything_witness :
  exists answer w'',
    submit_form
      (services office)
      (new_slug office "Poll" (world blank_office))
      (JsonRequest None)
      (world (snd (create_form
                     office
                     (mkCreateFormRequest
                        "Poll" None
                        [mkRaw (Some "vote") (Some "radio") (Some "Vote")
                               None None None None])
                     None blank_office)))
    = (inr answer, w'') /\
    exists doc,
      submission_coll w''
      = submission_coll
          (world (snd (create_form
                         office
                         (mkCreateFormRequest
                            "Poll" None
                            [mkRaw (Some "vote") (Some "radio") (Some "Vote")
                                   None None None None])
                         None blank_office)))
        ++ [doc] /\
      form_id doc = "1" /\
      data doc = [] /\
      file_links doc = [].
Proof.
  apply (@unrequired_form_accepts_anything
           office
           (mkCreateFormRequest
              "Poll" None
              [mkRaw (Some "vote") (Some "radio") (Some "Vote")
                     None None None None])
           None blank_office
           (mkCreateFormResponse
              "1" "https://forms.example/f/poll-1715938200"
              "Poll-1715938200")
           _ (JsonRequest None)).
  - vm_compute. reflexivity.
  - intros g [].
  - intros r [<-|[]]. discriminate.
Defined.
